(** * pcap-analysis: the packet extraction pipeline

    A shallow embedding of [src/model.py] (the pydantic model [Packet] with
    its two validators) and of [src/extract_packets.py] ([read_packet] and
    [read_pcap]), followed by the properties of the pipeline.

    Python objects are a small inductive type, exceptions are values of a
    result type, the [.jsonl] file is the text it holds, and a call that
    appends to the file is a function from that text to the new text and the
    outcome of the call. *)

From Stdlib Require Import ZArith List String Ascii Bool Lia.
From Stdlib Require Import DecimalString SpecFloat.
From Stdlib Require DecimalZ HexadecimalString HexadecimalPos.
Import ListNotations.

Local Open Scope string_scope.
Local Open Scope Z_scope.

(** ** Python objects and exceptions *)

(** A Python [float] is an IEEE-754 binary64 value. *)
Definition float : Type := spec_float.

(** The objects that reach the model: [None], [bool], [int], [float], [str]
    and the byte strings ([bytes], [bytearray]).  A [str] is the sequence of
    its code points, here below 256; a byte string is the sequence of its
    bytes. *)
Inductive pyobj : Type :=
| PyNone
| PyBool (b : bool)
| PyInt (z : Z)
| PyFloat (f : float)
| PyStr (s : string)
| PyBytes (b : string).

(** One entry of a pydantic [ValidationError]: the field it is about, what
    went wrong, and the offending input. *)
Inductive error_type : Type :=
| int_parsing
| float_parsing
| string_type
| value_error (msg : string).

Record line_error : Type := mk_line_error
  { loc : string; type_ : error_type; input : pyobj }.

Inductive exn : Type :=
| TypeError (msg : string)
| ValueError (msg : string)
| ValidationError (errors : list line_error).

(** The outcome of a Python call: it returns or it raises. *)
Inductive result (A : Type) : Type :=
| Return (a : A)
| Raise (e : exn).
Arguments Return {A} a.
Arguments Raise {A} e.

(** ** The builtin [int(x, base)] on an explicit base

    Follows CPython's [PyLong_FromString]: surrounding whitespace, one
    optional sign, the base prefix ([0x] for 16) with one optional underscore
    after it, then digits with single underscores between them. *)
Module PyLong.

Definition code (c : ascii) : Z := Z.of_N (N_of_ascii c).

(** [Py_ISSPACE]: space, tab, line feed, vertical tab, form feed, return. *)
Definition Py_ISSPACE (c : ascii) : bool :=
((9 <=? code c) && (code c <=? 13)) || (code c =? 32).

(** [_PyLong_DigitValue]: 37 marks a character that is no digit in any
  base. *)
Definition DigitValue (c : ascii) : Z :=
let n := code c in
if (48 <=? n) && (n <=? 57) then n - 48
else if (97 <=? n) && (n <=? 122) then n - 87
else if (65 <=? n) && (n <=? 90) then n - 55
else 37.

(** [_PyUnicode_TransformDecimalAndSpaceToASCII] on code points below 256:
  code points under 127 are kept, the two further white-space code points
  (NEL and the no-break space) become a space, any other becomes [?],
  which no literal contains. *)
Definition to_ascii_char (c : ascii) : ascii :=
if code c <? 127 then c
else if (code c =? 133) || (code c =? 160) then " "%char
else "?"%char.

Fixpoint TransformDecimalAndSpaceToASCII (s : string) : string :=
match s with
| EmptyString => EmptyString
| String c r => String (to_ascii_char c) (TransformDecimalAndSpaceToASCII r)
end.

Fixpoint skip_spaces (s : string) : string :=
match s with
| String c r => if Py_ISSPACE c then skip_spaces r else s
| EmptyString => EmptyString
end.

(** The sign: [true] when the literal is negated. *)
Definition skip_sign (s : string) : bool * string :=
match s with
| String c r =>
    if Ascii.eqb c "+" then (false, r)
    else if Ascii.eqb c "-" then (true, r)
    else (false, s)
| EmptyString => (false, s)
end.

Definition is_prefix_letter (base : Z) (c : ascii) : bool :=
((base =? 16) && (Ascii.eqb c "x" || Ascii.eqb c "X"))
|| ((base =? 8) && (Ascii.eqb c "o" || Ascii.eqb c "O"))
|| ((base =? 2) && (Ascii.eqb c "b" || Ascii.eqb c "B")).

(** The base prefix, and the one underscore allowed right after it. *)
Definition skip_prefix (base : Z) (s : string) : string :=
match s with
| String z (String l r) =>
    if Ascii.eqb z "0" && is_prefix_letter base l then
      match r with
      | String u r' => if Ascii.eqb u "_" then r' else r
      | EmptyString => r
      end
    else s
| _ => s
end.

(** The digit loop: [prev_us] tells that the previous character was an
  underscore, [acc] is the value read so far and [n] the number of digits.
  The loop stops at the first character that is neither a digit of the
  base nor an underscore; a doubled or trailing underscore is an error. *)
Fixpoint scan_digits (base : Z) (s : string) (prev_us : bool) (acc : Z) (n : nat)
: option (Z * nat * string) :=
match s with
| String c r =>
    if Ascii.eqb c "_" then
      if prev_us then None else scan_digits base r true acc n
    else if DigitValue c <? base then
      scan_digits base r false (acc * base + DigitValue c) (S n)
    else if prev_us then None else Some (acc, n, s)
| EmptyString => if prev_us then None else Some (acc, n, s)
end.

Definition begins_with_underscore (s : string) : bool :=
match s with
| String c _ => Ascii.eqb c "_"
| EmptyString => false
end.

(** [PyLong_FromString(s, base)] for an explicit base between 2 and 36;
  [None] is the [ValueError] for an invalid literal. *)
Definition FromString (s : string) (base : Z) : option Z :=
let (neg, s1) := skip_sign (skip_spaces s) in
let s2 := skip_prefix base s1 in
if begins_with_underscore s2 then None
else
  match scan_digits base s2 false 0 0 with
  | Some (_, O, _) => None
  | Some (v, S _, rest) =>
      match skip_spaces rest with
      | EmptyString => Some (if neg then - v else v)
      | String _ _ => None
      end
  | None => None
  end.

End PyLong.

(** [int(v, base)]: a [str], as well as a [bytes] or [bytearray] object, is
    parsed as a literal of that base; any other object is a [TypeError].
    The text of the [ValueError] ends with the repr of the literal, which is
    left out. *)
Definition py_int (v : pyobj) (base : Z) : result Z :=
  match v with
  | PyStr s =>
      match PyLong.FromString (PyLong.TransformDecimalAndSpaceToASCII s) base with
      | Some z => Return z
      | None => Raise (ValueError "invalid literal for int()")
      end
  | PyBytes b =>
      match PyLong.FromString b base with
      | Some z => Return z
      | None => Raise (ValueError "invalid literal for int()")
      end
  | _ => Raise (TypeError "int() can't convert non-string with explicit base")
  end.

(** ** What is taken from the libraries

    pydantic validates in lax mode: an [int] field also takes a numeric
    [str], a [float] field a numeric [str] or an [int], and so on.  Those
    conversions, and the text the json encoder writes for a [float], belong
    to the libraries; the development is parametric in them.  What the
    pipeline itself fixes is modelled below: an object that already has the
    type of its field is taken as it is. *)
Definition LF : ascii := ascii_of_N 10.

(** A text without a line feed. *)
Fixpoint no_line_feed (s : string) : bool :=
  match s with
  | EmptyString => true
  | String c r => negb (Ascii.eqb c LF) && no_line_feed r
  end.

Class Library : Type := {
  (** an [int] field given an object that is not an [int] *)
  lax_int : pyobj -> option Z;
  (** a [float] field given an object that is not a [float] *)
  lax_float : pyobj -> option float;
  (** a [str] field given an object that is not a [str] *)
  lax_str : pyobj -> option string;
  (** the text written for a [float] that went through
      [json.loads(model_dump_json())] and the json encoder *)
  float_json : float -> string;
  float_json_one_line : forall f, no_line_feed (float_json f) = true
}.

(** ** Validation of a pydantic model

    The model is a pydantic 2 model ([read_packet] calls its
    [model_dump_json]).  The fields are validated one after the other, in the order of their
    declaration.  A failed conversion, or a [ValueError] raised by a
    validator, is recorded as a line error and validation goes on with the
    next field; any other exception raised by a validator leaves the
    validation at once.  When all fields are done and line errors were
    recorded, they are raised together as one [ValidationError]. *)
Inductive validated (A : Type) : Type :=
| Valid (a : A)
| Errors (es : list line_error)
| Raised (e : exn).
Arguments Valid {A} a.
Arguments Errors {A} es.
Arguments Raised {A} e.

Definition ap {A B : Type} (f : validated (A -> B)) (x : validated A) : validated B :=
  match f with
  | Raised e => Raised e
  | Valid g =>
      match x with
      | Valid a => Valid (g a)
      | Errors es => Errors es
      | Raised e => Raised e
      end
  | Errors es =>
      match x with
      | Valid _ => Errors es
      | Errors es' => Errors (es ++ es')
      | Raised e => Raised e
      end
  end.

Notation "f <*> x" := (ap f x) (at level 50, left associativity).

(** What becomes of the outcome of a validator function on field [name]. *)
Definition of_result {A : Type} (name : string) (v : pyobj) (r : result A) : validated A :=
  match r with
  | Return a => Valid a
  | Raise (ValueError msg) => Errors [mk_line_error name (value_error msg) v]
  | Raise (ValidationError es) => Errors es
  | Raise (TypeError msg) => Raised (TypeError msg)
  end.

Section Schemas.
Context {lib : Library}.

Definition int_schema (name : string) (v : pyobj) : validated Z :=
  match v with
  | PyInt z => Valid z
  | _ =>
      match lax_int v with
      | Some z => Valid z
      | None => Errors [mk_line_error name int_parsing v]
      end
  end.

Definition float_schema (name : string) (v : pyobj) : validated float :=
  match v with
  | PyFloat f => Valid f
  | _ =>
      match lax_float v with
      | Some f => Valid f
      | None => Errors [mk_line_error name float_parsing v]
      end
  end.

Definition str_schema (name : string) (v : pyobj) : validated string :=
  match v with
  | PyStr s => Valid s
  | _ =>
      match lax_str v with
      | Some s => Valid s
      | None => Errors [mk_line_error name string_type v]
      end
  end.

(** [@validator(name)]: the function runs on the value the field's type
    accepted. *)
Definition validator {A : Type}
    (schema : string -> pyobj -> validated A) (f : A -> result A)
    (name : string) (v : pyobj) : validated A :=
  match schema name v with
  | Valid a => of_result name v (f a)
  | Errors es => Errors es
  | Raised e => Raised e
  end.

(** [@validator(name, pre=True)] on an [int] field: the function runs on
    the raw input, and the [int] it returns goes to the field's type. *)
Definition validator_pre (f : pyobj -> result Z) (name : string) (v : pyobj)
  : validated Z :=
  match of_result name v (f v) with
  | Valid z => int_schema name (PyInt z)
  | Errors es => Errors es
  | Raised e => Raised e
  end.
End Schemas.

(** ** model.py *)

(** The keyword arguments of a call [Packet(...)]. *)
Module Args.
Record t : Type := Build
  { dsfield_dscp : pyobj;
    hdr_len : pyobj;
    dsfield : pyobj;
    dsfield_ecn : pyobj;
    len : pyobj;
    proto : pyobj;
    flags_df : pyobj;
    flags_mf : pyobj;
    flags_rb : pyobj;
    frag_offset : pyobj;
    ttl : pyobj;
    src : pyobj;
    dst : pyobj;
    srcport : pyobj;
    dstport : pyobj;
    sniff_timestamp : pyobj }.
End Args.

(** [class Packet(BaseModel)] *)
Record Packet : Type := Build_Packet
  { dsfield_dscp : Z;
    hdr_len : Z;
    dsfield : Z;
    dsfield_ecn : Z;
    len : Z;
    proto : Z;
    flags_df : Z;
    flags_mf : Z;
    flags_rb : Z;
    frag_offset : Z;
    ttl : Z;
    src : string;
    dst : string;
    srcport : Z;
    dstport : Z;
    sniff_timestamp : float }.

(** The call [ValidationError('...')]: pydantic's [ValidationError] has no
    constructor that Python code can call, so the call itself raises a
    [TypeError] and the message never reaches an exception. *)
Definition ValidationError_call (msg : string) : exn :=
  TypeError "No constructor defined for ValidationError".

Definition flags_rb_must_be_zero (v : Z) : result Z :=
  if negb (v =? 0) then Raise (ValidationError_call "flags_rb must be zero.")
  else Return v.

Definition set_dsfield_int16 (v : pyobj) : result Z :=
  py_int v 16.

Section Model.
Context {lib : Library}.

Definition model_validate (kw : Args.t) : validated Packet :=
  Valid Build_Packet
    <*> int_schema "dsfield_dscp" (Args.dsfield_dscp kw)
    <*> int_schema "hdr_len" (Args.hdr_len kw)
    <*> validator_pre set_dsfield_int16 "dsfield" (Args.dsfield kw)
    <*> int_schema "dsfield_ecn" (Args.dsfield_ecn kw)
    <*> int_schema "len" (Args.len kw)
    <*> int_schema "proto" (Args.proto kw)
    <*> int_schema "flags_df" (Args.flags_df kw)
    <*> int_schema "flags_mf" (Args.flags_mf kw)
    <*> validator int_schema flags_rb_must_be_zero "flags_rb" (Args.flags_rb kw)
    <*> int_schema "frag_offset" (Args.frag_offset kw)
    <*> int_schema "ttl" (Args.ttl kw)
    <*> str_schema "src" (Args.src kw)
    <*> str_schema "dst" (Args.dst kw)
    <*> int_schema "srcport" (Args.srcport kw)
    <*> int_schema "dstport" (Args.dstport kw)
    <*> float_schema "sniff_timestamp" (Args.sniff_timestamp kw).

(** The call [Packet(...)] with the keyword arguments [kw]. *)
Definition Packet_init (kw : Args.t) : result Packet :=
  match model_validate kw with
  | Valid pckt => Return pckt
  | Errors es => Raise (ValidationError es)
  | Raised e => Raise e
  end.
End Model.

(** ** The json encoder

    What [read_packet] writes is a flat dict: its values are [int], [float]
    and [str] objects. *)
Inductive jvalue : Type :=
| JInt (z : Z)
| JFloat (f : float)
| JStr (s : string).

(** A dict keeps the order in which its keys were inserted. *)
Definition pydict : Type := list (string * jvalue).

Definition DQUOTE : ascii := ascii_of_N 34.

Definition hex_digit (n : Z) : ascii :=
  ascii_of_N (Z.to_N (if n <? 10 then 48 + n else 87 + n)).

(** [ESCAPE_DCT] of [json.encoder]: the quote, the backslash and the
    control characters are escaped, every other character stands for
    itself ([ensure_ascii] is off in jsonlines). *)
Definition ESCAPE_DCT (c : ascii) : string :=
  let n := PyLong.code c in
  if n =? 34 then String "\" (String DQUOTE EmptyString)
  else if n =? 92 then "\\"
  else if n =? 10 then "\n"
  else if n =? 13 then "\r"
  else if n =? 9 then "\t"
  else if n =? 8 then "\b"
  else if n =? 12 then "\f"
  else if n <? 32 then
    "\u00" ++ String (hex_digit (n / 16)) (String (hex_digit (n mod 16)) EmptyString)
  else String c EmptyString.

Fixpoint escape (s : string) : string :=
  match s with
  | EmptyString => EmptyString
  | String c r => ESCAPE_DCT c ++ escape r
  end.

Definition encode_basestring (s : string) : string :=
  String DQUOTE (escape s ++ String DQUOTE EmptyString).

(** [int.__repr__] *)
Definition int_repr (z : Z) : string := NilZero.string_of_int (Z.to_int z).

Section Json.
Context {lib : Library}.

Definition encode_value (v : jvalue) : string :=
  match v with
  | JInt z => int_repr z
  | JFloat f => float_json f
  | JStr s => encode_basestring s
  end.

Definition encode_item (kv : string * jvalue) : string :=
  encode_basestring (fst kv) ++ ": " ++ encode_value (snd kv).

(** [json.JSONEncoder(ensure_ascii=False).encode] on a dict *)
Definition json_dumps (d : pydict) : string :=
  "{" ++ String.concat ", " (map encode_item d) ++ "}".
End Json.

(** [json.loads(pckt.model_dump_json())]: the dict read back from the json
    text of the model, one key per field in the order of the class. *)
Definition model_dump (pckt : Packet) : pydict :=
  [ ("dsfield_dscp", JInt (dsfield_dscp pckt));
    ("hdr_len", JInt (hdr_len pckt));
    ("dsfield", JInt (dsfield pckt));
    ("dsfield_ecn", JInt (dsfield_ecn pckt));
    ("len", JInt (len pckt));
    ("proto", JInt (proto pckt));
    ("flags_df", JInt (flags_df pckt));
    ("flags_mf", JInt (flags_mf pckt));
    ("flags_rb", JInt (flags_rb pckt));
    ("frag_offset", JInt (frag_offset pckt));
    ("ttl", JInt (ttl pckt));
    ("src", JStr (src pckt));
    ("dst", JStr (dst pckt));
    ("srcport", JInt (srcport pckt));
    ("dstport", JInt (dstport pckt));
    ("sniff_timestamp", JFloat (sniff_timestamp pckt)) ].

(** ** Reading a line back

    A reader of one line of the file, to state what a line holds.  It
    accepts the json text of one flat object: white space, an opening
    brace, members [string : value] set apart by commas, a closing brace
    and white space.  A value is a string or a scalar, the text up to the
    next comma, brace or white space; a scalar that is an integer literal
    is read as that integer, any other is kept as its text.  Strings are
    read with the escapes of json; a raw control character ends the
    reading, and so does anything after the closing brace.  Characters are
    bytes, as in the encoder above. *)
Inductive jtoken : Type :=
| TInt (z : Z)
| TStr (s : string)
| TOther (text : string).

Definition scalar (text : string) : jtoken :=
  match NilZero.int_of_string text with
  | Some d => TInt (Z.of_int d)
  | None => TOther text
  end.

Definition is_ws (c : ascii) : bool :=
  let n := PyLong.code c in (n =? 32) || (n =? 9) || (n =? 10) || (n =? 13).

Definition unescape_char (e : ascii) : option ascii :=
  let n := PyLong.code e in
  if n =? 34 then Some DQUOTE
  else if n =? 92 then Some "\"%char
  else if n =? 47 then Some "/"%char
  else if n =? 98 then Some (ascii_of_N 8)
  else if n =? 102 then Some (ascii_of_N 12)
  else if n =? 110 then Some (ascii_of_N 10)
  else if n =? 114 then Some (ascii_of_N 13)
  else if n =? 116 then Some (ascii_of_N 9)
  else None.

(** The character of [\uXXXX], when it is below 256. *)
Definition hex4 (a b c d : ascii) : option ascii :=
  let v x := PyLong.DigitValue x in
  if (v a <? 16) && (v b <? 16) && (v c <? 16) && (v d <? 16) then
    let n := ((v a * 16 + v b) * 16 + v c) * 16 + v d in
    if n <? 256 then Some (ascii_of_N (Z.to_N n)) else None
  else None.

(** Where the reader stands: the members read so far are kept last first. *)
Inductive reader : Type :=
| AtStart
| AtMember (first : bool) (done : list (string * jtoken))
| InString (k : option string) (acc : string) (done : list (string * jtoken))
| AtColon (k : string) (done : list (string * jtoken))
| AtValue (k : string) (done : list (string * jtoken))
| InScalar (k : string) (acc : string) (done : list (string * jtoken))
| AfterValue (done : list (string * jtoken))
| AtEnd (done : list (string * jtoken)).

Definition snoc (s : string) (c : ascii) : string := s ++ String c EmptyString.

Fixpoint read (st : reader) (s : string) {struct s} : option (list (string * jtoken)) :=
  match s with
  | EmptyString =>
      match st with
      | AtEnd done => Some (rev done)
      | _ => None
      end
  | String c r =>
      match st with
      | AtStart =>
          if is_ws c then read AtStart r
          else if Ascii.eqb c "{" then read (AtMember true []) r
          else None
      | AtMember first done =>
          if is_ws c then read (AtMember first done) r
          else if Ascii.eqb c DQUOTE then read (InString None EmptyString done) r
          else if Ascii.eqb c "}" && first then read (AtEnd done) r
          else None
      | InString k acc done =>
          if Ascii.eqb c DQUOTE then
            match k with
            | None => read (AtColon acc done) r
            | Some key => read (AfterValue ((key, TStr acc) :: done)) r
            end
          else if Ascii.eqb c "\" then
            match r with
            | String e r' =>
                if Ascii.eqb e "u" then
                  match r' with
                  | String h1 (String h2 (String h3 (String h4 r''))) =>
                      match hex4 h1 h2 h3 h4 with
                      | Some x => read (InString k (snoc acc x) done) r''
                      | None => None
                      end
                  | _ => None
                  end
                else
                  match unescape_char e with
                  | Some x => read (InString k (snoc acc x) done) r'
                  | None => None
                  end
            | EmptyString => None
            end
          else if PyLong.code c <? 32 then None
          else read (InString k (snoc acc c) done) r
      | AtColon k done =>
          if is_ws c then read (AtColon k done) r
          else if Ascii.eqb c ":" then read (AtValue k done) r
          else None
      | AtValue k done =>
          if is_ws c then read (AtValue k done) r
          else if Ascii.eqb c DQUOTE then read (InString (Some k) EmptyString done) r
          else if Ascii.eqb c "," || Ascii.eqb c "}" then None
          else read (InScalar k (String c EmptyString) done) r
      | InScalar k acc done =>
          if Ascii.eqb c "," then read (AtMember false ((k, scalar acc) :: done)) r
          else if Ascii.eqb c "}" then read (AtEnd ((k, scalar acc) :: done)) r
          else if is_ws c then read (AfterValue ((k, scalar acc) :: done)) r
          else read (InScalar k (snoc acc c) done) r
      | AfterValue done =>
          if is_ws c then read (AfterValue done) r
          else if Ascii.eqb c "," then read (AtMember false done) r
          else if Ascii.eqb c "}" then read (AtEnd done) r
          else None
      | AtEnd done =>
          if is_ws c then read (AtEnd done) r else None
      end
  end.

(** The members of the object that a text holds, in the order of the text;
    [None] for a text that is not one flat object. *)
Definition json_loads (s : string) : option (list (string * jtoken)) := read AtStart s.

(** A text that the reader takes as one scalar: it is not empty and holds
    no white space, comma, closing brace or quote. *)
Definition token_char (c : ascii) : bool :=
  negb (is_ws c || Ascii.eqb c "," || Ascii.eqb c "}" || Ascii.eqb c DQUOTE).

Fixpoint token_chars (s : string) : bool :=
  match s with
  | EmptyString => true
  | String c r => token_char c && token_chars r
  end.

Definition scalar_text (s : string) : bool :=
  match s with
  | EmptyString => false
  | String _ _ => token_chars s
  end.

Section Decoded.
Context {lib : Library}.

(** What a value of the dict is read back as. *)
Definition decoded (v : jvalue) : jtoken :=
  match v with
  | JInt z => TInt z
  | JFloat f => scalar (float_json f)
  | JStr s => TStr s
  end.

Definition decoded_item (kv : string * jvalue) : string * jtoken :=
  (fst kv, decoded (snd kv)).

Definition readable (v : jvalue) : bool :=
  match v with
  | JFloat f => scalar_text (float_json f)
  | _ => true
  end.

(** The sixteen members that the line of a model stands for. *)
Definition record (pckt : Packet) : list (string * jtoken) :=
  [ ("dsfield_dscp", TInt (dsfield_dscp pckt));
    ("hdr_len", TInt (hdr_len pckt));
    ("dsfield", TInt (dsfield pckt));
    ("dsfield_ecn", TInt (dsfield_ecn pckt));
    ("len", TInt (len pckt));
    ("proto", TInt (proto pckt));
    ("flags_df", TInt (flags_df pckt));
    ("flags_mf", TInt (flags_mf pckt));
    ("flags_rb", TInt (flags_rb pckt));
    ("frag_offset", TInt (frag_offset pckt));
    ("ttl", TInt (ttl pckt));
    ("src", TStr (src pckt));
    ("dst", TStr (dst pckt));
    ("srcport", TInt (srcport pckt));
    ("dstport", TInt (dstport pckt));
    ("sniff_timestamp", scalar (float_json (sniff_timestamp pckt))) ].
End Decoded.

(** ** Calls that append to the [.jsonl] file

    The state is the text of the file at [path]; a call maps it to the text
    it leaves and to its outcome.  An exception leaves the text as it was
    when it was raised. *)
Definition IO (A : Type) : Type := string -> string * result A.

Definition ret {A : Type} (a : A) : IO A := fun log => (log, Return a).

Definition lift {A : Type} (r : result A) : IO A := fun log => (log, r).

Definition bind {A B : Type} (m : IO A) (k : A -> IO B) : IO B :=
  fun log =>
    match m log with
    | (log', Return a) => k a log'
    | (log', Raise e) => (log', Raise e)
    end.

Notation "x <- m ;; k" := (bind m (fun x => k))
  (at level 61, m at next level, right associativity).
Notation "m ;; k" := (bind m (fun _ => k))
  (at level 61, right associativity).

Section Jsonlines.
Context {lib : Library}.

(** [with jsonlines.open(path, mode='a') as writer: writer.write(obj)]:
    the encoded object and a line feed go to the end of the file. *)
Definition jsonlines_write (obj : pydict) : IO unit :=
  fun log => (log ++ json_dumps obj ++ String LF EmptyString, Return tt).
End Jsonlines.

(** ** The decoded packet

    pyshark is outside the repository.  A packet is modelled by what
    [read_packet] reads from it: the layers [ip], [udp] and [tcp], each
    there or not, with the attributes that are read, and the time stamp. *)
Module pyshark.
Record ip_layer : Type := Build_ip
  { dsfield_dscp : pyobj;
    hdr_len : pyobj;
    dsfield : pyobj;
    dsfield_ecn : pyobj;
    len : pyobj;
    proto : pyobj;
    flags_df : pyobj;
    flags_mf : pyobj;
    flags_rb : pyobj;
    frag_offset : pyobj;
    ttl : pyobj;
    src : pyobj;
    dst : pyobj }.

Record transport_layer : Type := Build_transport
  { srcport : pyobj; dstport : pyobj }.

Record packet : Type := Build_packet
  { ip : option ip_layer;
    udp : option transport_layer;
    tcp : option transport_layer;
    sniff_timestamp : pyobj }.
End pyshark.

(** ** extract_packets.py *)
Section ExtractPackets.
Context {lib : Library}.

(** The keyword arguments of the call [Packet(...)] in [read_packet], for
    a packet whose IP layer is [ip]. *)
Definition Packet_kwargs (packet : pyshark.packet) (ip : pyshark.ip_layer) : Args.t :=
  {| Args.dsfield_dscp := pyshark.dsfield_dscp ip;
     Args.hdr_len := pyshark.hdr_len ip;
     Args.dsfield := pyshark.dsfield ip;
     Args.dsfield_ecn := pyshark.dsfield_ecn ip;
     Args.len := pyshark.len ip;
     Args.proto := pyshark.proto ip;
     Args.flags_df := pyshark.flags_df ip;
     Args.flags_mf := pyshark.flags_mf ip;
     Args.flags_rb := pyshark.flags_rb ip;
     Args.frag_offset := pyshark.frag_offset ip;
     Args.ttl := pyshark.ttl ip;
     Args.src := pyshark.src ip;
     Args.dst := pyshark.dst ip;
     Args.srcport :=
       match pyshark.udp packet with
       | Some udp => pyshark.srcport udp
       | None =>
           match pyshark.tcp packet with
           | Some tcp => pyshark.srcport tcp
           | None => PyInt (-1)
           end
       end;
     Args.dstport :=
       match pyshark.udp packet with
       | Some udp => pyshark.dstport udp
       | None =>
           match pyshark.tcp packet with
           | Some tcp => pyshark.dstport tcp
           | None => PyInt (-1)
           end
       end;
     Args.sniff_timestamp := pyshark.sniff_timestamp packet |}.

Definition read_packet (packet : pyshark.packet) : IO unit :=
  match pyshark.ip packet with
  | Some ip =>
      pckt <- lift (Packet_init (Packet_kwargs packet ip)) ;;
      jsonlines_write (model_dump pckt)
  | None => ret tt
  end.

(** [Parallel(n_jobs=1, ...)(tasks)]: with one job joblib runs the tasks
    in the calling thread, one after the other in the order the generator
    yields them; an exception of a task leaves the loop. *)
Fixpoint Parallel_sequential (tasks : list (IO unit)) : IO unit :=
  match tasks with
  | [] => ret tt
  | task :: rest => task ;; Parallel_sequential rest
  end.

(** [read_pcap] on the packets [pcap] of the capture.  Only the run with
    [n_jobs = 1] is a function of the capture and of the file; with more
    jobs the packets are handed to threads, which is not modelled
    ([None]).  The elapsed time that the function returns is left out. *)
Definition read_pcap (pcap : list pyshark.packet) (n_jobs : Z) : option (IO unit) :=
  if n_jobs =? 1 then Some (Parallel_sequential (map read_packet pcap))
  else None.
End ExtractPackets.

(** ** Notions for the statements *)

(** Whether the validation of a field left with an exception. *)
Definition raises {A : Type} (x : validated A) : bool :=
  match x with Raised _ => true | _ => false end.

(** The same keyword arguments with another [dsfield], and the same model
    with another [dsfield]. *)
Definition with_dsfield (kw : Args.t) (v : pyobj) : Args.t :=
  {| Args.dsfield_dscp := Args.dsfield_dscp kw;
     Args.hdr_len := Args.hdr_len kw;
     Args.dsfield := v;
     Args.dsfield_ecn := Args.dsfield_ecn kw;
     Args.len := Args.len kw;
     Args.proto := Args.proto kw;
     Args.flags_df := Args.flags_df kw;
     Args.flags_mf := Args.flags_mf kw;
     Args.flags_rb := Args.flags_rb kw;
     Args.frag_offset := Args.frag_offset kw;
     Args.ttl := Args.ttl kw;
     Args.src := Args.src kw;
     Args.dst := Args.dst kw;
     Args.srcport := Args.srcport kw;
     Args.dstport := Args.dstport kw;
     Args.sniff_timestamp := Args.sniff_timestamp kw |}.

Definition set_dsfield (pckt : Packet) (z : Z) : Packet :=
  {| dsfield_dscp := dsfield_dscp pckt;
     hdr_len := hdr_len pckt;
     dsfield := z;
     dsfield_ecn := dsfield_ecn pckt;
     len := len pckt;
     proto := proto pckt;
     flags_df := flags_df pckt;
     flags_mf := flags_mf pckt;
     flags_rb := flags_rb pckt;
     frag_offset := frag_offset pckt;
     ttl := ttl pckt;
     src := src pckt;
     dst := dst pckt;
     srcport := srcport pckt;
     dstport := dstport pckt;
     sniff_timestamp := sniff_timestamp pckt |}.

(** The number that a string of hexadecimal digits stands for: the digits
    from the left, each weighing sixteen times the next. *)
Definition is_hex_digit (c : ascii) : bool := PyLong.DigitValue c <? 16.

Fixpoint all_hex_digits (s : string) : bool :=
  match s with
  | EmptyString => true
  | String c r => is_hex_digit c && all_hex_digits r
  end.

Fixpoint hex_value_from (acc : Z) (s : string) : Z :=
  match s with
  | EmptyString => acc
  | String c r => hex_value_from (acc * 16 + PyLong.DigitValue c) r
  end.

Definition hex_value (s : string) : Z := hex_value_from 0 s.

(** An object that is neither a [str] nor a byte string. *)
Definition non_string (v : pyobj) : bool :=
  match v with
  | PyStr _ | PyBytes _ => false
  | _ => true
  end.

(** A text of code points below 127, which [int] reads as they are, and
    the no-break space, which is white space in a [str] and no character
    of a literal in a byte string. *)
Fixpoint all_below_127 (s : string) : bool :=
  match s with
  | EmptyString => true
  | String c r => (PyLong.code c <? 127) && all_below_127 r
  end.

Definition NBSP : ascii := ascii_of_N 160.

(** The arguments of a call but the time stamp and the two addresses. *)
Definition but_diagnostics (kw : Args.t) :=
  (Args.dsfield_dscp kw, Args.hdr_len kw, Args.dsfield kw, Args.dsfield_ecn kw,
   Args.len kw, Args.proto kw, Args.flags_df kw, Args.flags_mf kw, Args.flags_rb kw,
   Args.frag_offset kw, Args.ttl kw, Args.srcport kw, Args.dstport kw).

(** How a validation ends, the value left out. *)
Inductive verdict : Type :=
| Accepted
| Rejected (es : list line_error)
| Raising (e : exn).

Definition verdict_of {A : Type} (x : validated A) : verdict :=
  match x with
  | Valid _ => Accepted
  | Errors es => Rejected es
  | Raised e => Raising e
  end.

Definition join_verdicts (f x : verdict) : verdict :=
  match f with
  | Raising e => Raising e
  | Accepted => x
  | Rejected es =>
      match x with
      | Accepted => Rejected es
      | Rejected es' => Rejected (es ++ es')
      | Raising e => Raising e
      end
  end.

(** Arguments as [read_packet] builds them for a UDP packet, with the given
    time stamp, addresses, [ttl] and [flags_rb]. *)
Definition example_args (ts src dst ttl rb : string) : Args.t :=
  {| Args.dsfield_dscp := PyStr "0";
     Args.hdr_len := PyStr "20";
     Args.dsfield := PyStr "0x00";
     Args.dsfield_ecn := PyStr "0";
     Args.len := PyStr "60";
     Args.proto := PyStr "17";
     Args.flags_df := PyStr "1";
     Args.flags_mf := PyStr "0";
     Args.flags_rb := PyStr rb;
     Args.frag_offset := PyStr "0";
     Args.ttl := PyStr ttl;
     Args.src := PyStr src;
     Args.dst := PyStr dst;
     Args.srcport := PyStr "40000";
     Args.dstport := PyStr "53";
     Args.sniff_timestamp := PyStr ts |}.

(** The names of the fields of [Packet], in the order of the class. *)
Definition field_names : list string :=
  [ "dsfield_dscp"; "hdr_len"; "dsfield"; "dsfield_ecn"; "len"; "proto";
    "flags_df"; "flags_mf"; "flags_rb"; "frag_offset"; "ttl"; "src"; "dst";
    "srcport"; "dstport"; "sniff_timestamp" ].

Section Statements.
Context {lib : Library}.

(** The time stamp and the two addresses of a call are acceptable to their
    fields. *)
Definition diagnostics_accepted (kw : Args.t) : Prop :=
  (exists s, str_schema "src" (Args.src kw) = Valid s)
  /\ (exists d, str_schema "dst" (Args.dst kw) = Valid d)
  /\ (exists t, float_schema "sniff_timestamp" (Args.sniff_timestamp kw) = Valid t).

(** The line that a model adds to the file. *)
Definition log_entry (pckt : Packet) : string :=
  json_dumps (model_dump pckt) ++ String LF EmptyString.

(** The exception with which [Packet(...)] rejects a packet, if it does. *)
Definition rejection (packet : pyshark.packet) : option exn :=
  match pyshark.ip packet with
  | Some ip =>
      match Packet_init (Packet_kwargs packet ip) with
      | Return _ => None
      | Raise e => Some e
      end
  | None => None
  end.

(** The text a packet stands for in the file: the line of its model, and
    nothing for a packet without an IP layer or a rejected one. *)
Definition appended (packet : pyshark.packet) : string :=
  match pyshark.ip packet with
  | Some ip =>
      match Packet_init (Packet_kwargs packet ip) with
      | Return pckt => log_entry pckt
      | Raise _ => EmptyString
      end
  | None => EmptyString
  end.

(** The lines of the packets, in the order in which they are decoded. *)
Definition in_decode_order (pcap : list pyshark.packet) : string :=
  fold_right (fun packet rest => appended packet ++ rest) EmptyString pcap.

(** The packets decoded before the first rejected one, and the exception
    of that one. *)
Fixpoint accepted_prefix (pcap : list pyshark.packet) : list pyshark.packet :=
  match pcap with
  | [] => []
  | packet :: rest =>
      match rejection packet with
      | Some _ => []
      | None => packet :: accepted_prefix rest
      end
  end.

Fixpoint first_rejection (pcap : list pyshark.packet) : option exn :=
  match pcap with
  | [] => None
  | packet :: rest =>
      match rejection packet with
      | Some e => Some e
      | None => first_rejection rest
      end
  end.

(** The models of the packets that [read_packet] records, and the text of a
    file that holds the lines of the given models and nothing else. *)
Definition models_of (pcap : list pyshark.packet) : list Packet :=
  flat_map
    (fun packet =>
       match pyshark.ip packet with
       | Some ip =>
           match Packet_init (Packet_kwargs packet ip) with
           | Return pckt => [pckt]
           | Raise _ => []
           end
       | None => []
       end)
    pcap.

Definition lines (models : list Packet) : string :=
  fold_right (fun pckt rest => log_entry pckt ++ rest) EmptyString models.
End Statements.

(** ** An instance of the library conversions

    Enough of the lax conversions to run the pipeline on the text
    attributes pyshark hands over: an [int] field reads a decimal literal, a
    [float] field reads a whole number of seconds, a [str] field takes
    nothing but a [str].  A whole [float] below [2^53] is written with its
    digits and [.0], as Python writes it.  Every other [float] is written
    [null] here: that is what the pipeline writes for an infinity or a NaN,
    and a stand-in for the floats with a fractional part, which no example
    below uses. *)
Definition float_of_Z (z : Z) : option float :=
  if Z.abs z <? 2 ^ 53 then Some (binary_normalize 53 1024 z 0 false) else None.

Definition Z_of_float (f : float) : option Z :=
  match f with
  | S754_zero _ => Some 0
  | S754_finite s m e =>
      let v :=
        if 0 <=? e then Some (Z.pos m * 2 ^ e)
        else if Z.pos m mod 2 ^ (- e) =? 0 then Some (Z.pos m / 2 ^ (- e))
        else None in
      option_map (fun a => if s then - a else a) v
  | _ => None
  end.

Definition plain_lax_int (v : pyobj) : option Z :=
  match v with
  | PyStr s => PyLong.FromString s 10
  | PyBool b => Some (if b then 1 else 0)
  | _ => None
  end.

Definition plain_lax_float (v : pyobj) : option float :=
  match v with
  | PyInt z => float_of_Z z
  | PyStr s =>
      match PyLong.FromString s 10 with
      | Some z => float_of_Z z
      | None => None
      end
  | _ => None
  end.

Definition plain_float_json (f : float) : string :=
  match Z_of_float f with
  | Some z =>
      if Z.abs z <? 2 ^ 53 then
        (match f with
         | S754_zero true | S754_finite true _ _ => "-"
         | _ => EmptyString
         end) ++ int_repr (Z.abs z) ++ ".0"
      else "null"
  | None => "null"
  end.

(** ** Packets for the examples

    Attributes are the text pyshark hands over. *)
Definition example_ip (ds rb : pyobj) : pyshark.ip_layer :=
  {| pyshark.dsfield_dscp := PyStr "0";
     pyshark.hdr_len := PyStr "20";
     pyshark.dsfield := ds;
     pyshark.dsfield_ecn := PyStr "0";
     pyshark.len := PyStr "60";
     pyshark.proto := PyStr "17";
     pyshark.flags_df := PyStr "1";
     pyshark.flags_mf := PyStr "0";
     pyshark.flags_rb := rb;
     pyshark.frag_offset := PyStr "0";
     pyshark.ttl := PyStr "64";
     pyshark.src := PyStr "10.0.0.1";
     pyshark.dst := PyStr "10.0.0.2" |}.

Definition dns_ports : pyshark.transport_layer :=
  {| pyshark.srcport := PyStr "40000"; pyshark.dstport := PyStr "53" |}.

Definition http_ports : pyshark.transport_layer :=
  {| pyshark.srcport := PyStr "51234"; pyshark.dstport := PyStr "80" |}.

(** A UDP packet, a packet that shows both transport layers, a TCP packet,
    an IP packet without ports, and a frame without an IP layer. *)
Definition udp_packet : pyshark.packet :=
  pyshark.Build_packet (Some (example_ip (PyStr "0x00") (PyStr "0")))
    (Some dns_ports) None (PyStr "1700000000").

Definition udp_and_tcp_packet : pyshark.packet :=
  pyshark.Build_packet (Some (example_ip (PyStr "0x00") (PyStr "0")))
    (Some dns_ports) (Some http_ports) (PyStr "1700000001").

Definition tcp_packet : pyshark.packet :=
  pyshark.Build_packet (Some (example_ip (PyStr "1a") (PyStr "0")))
    None (Some http_ports) (PyStr "1700000002").

Definition icmp_packet : pyshark.packet :=
  pyshark.Build_packet (Some (example_ip (PyStr "0xFF") (PyStr "0")))
    None None (PyStr "1700000003").

Definition arp_packet : pyshark.packet :=
  pyshark.Build_packet None None None (PyStr "1700000004").

(** A packet with the reserved bit set, and one whose [dsfield] is no
    hexadecimal literal. *)
Definition reserved_bit_packet : pyshark.packet :=
  pyshark.Build_packet (Some (example_ip (PyStr "0x00") (PyStr "1")))
    (Some dns_ports) None (PyStr "1700000005").

Definition malformed_packet : pyshark.packet :=
  pyshark.Build_packet (Some (example_ip (PyStr "zz") (PyStr "0")))
    (Some dns_ports) None (PyStr "1700000006").

(** The model that the example packets give, up to the fields in which they
    differ. *)
Definition example_model (ds sport dport ts : Z) : Packet :=
  {| dsfield_dscp := 0;
     hdr_len := 20;
     dsfield := ds;
     dsfield_ecn := 0;
     len := 60;
     proto := 17;
     flags_df := 1;
     flags_mf := 0;
     flags_rb := 0;
     frag_offset := 0;
     ttl := 64;
     src := "10.0.0.1";
     dst := "10.0.0.2";
     srcport := sport;
     dstport := dport;
     sniff_timestamp := binary_normalize 53 1024 ts 0 false |}.

Definition example_args_ok : Args.t :=
  example_args "1700000000" "10.0.0.1" "10.0.0.2" "64" "0".

(** ** [main] of extract_packets.py

    The directory [data/] holds the captures, the file [pcap.jsonl] and the
    [.parquet] copies.  polars is outside the repository: what
    [pl.read_ndjson] makes of the text of a file is a parameter, [None]
    when it raises. *)
Class Polars : Type := {
  DataFrame : Type;
  read_ndjson : string -> option DataFrame
}.

(** What can end [main] before its last line. *)
Inductive error : Type :=
| AssertionError (msg : string)
| Exception (msg : string)
| FileNotFoundError
| PolarsError
| Uncaught (e : exn).

Inductive ended : Type :=
| Finished
| Failed (e : error).

(** A capture file [data/<stem>.pcap] and the packets pyshark decodes from
    it. *)
Record capture : Type := Build_capture
  { stem : string; packets : list pyshark.packet }.

(** The text of a file, which is empty when the file is missing. *)
Definition content (f : option string) : string :=
  match f with
  | Some text => text
  | None => EmptyString
  end.

(** A run of [read_pcap] on a file that may be missing: [read_packet] opens
    the file in append mode right before it writes a line, which creates
    it, so the file is there afterwards exactly when it was there before or
    a line was written. *)
Definition on_file (run : IO unit) (f : option string) : option string * result unit :=
  let (text, r) := run (content f) in
  (match f with
   | Some _ => Some text
   | None =>
       match text with
       | EmptyString => None
       | String _ _ => Some text
       end
   end, r).

Section Main.
Context {lib : Library} {polars : Polars}.

(** The files [main] works on: [data/pcap.jsonl], missing or with its text,
    and the [.parquet] files written so far, each with its name. *)
Record files : Type := Build_files
  { jsonl : option string; parquet : list (string * DataFrame) }.

Definition parquet_name (c : capture) : string := "data/" ++ stem c ++ ".parquet".

(** The loop of [main] over the captures that [glob] yields: each is read
    into [pcap.jsonl], then the whole of that file is copied to the
    [.parquet] file of the capture.  As for [read_pcap], only the run with
    one job is modelled. *)
Fixpoint main_loop (jobs : Z) (captures : list capture) (fs : files)
  : option (files * ended) :=
  match captures with
  | [] => Some (fs, Finished)
  | c :: rest =>
      match read_pcap (packets c) jobs with
      | None => None
      | Some run =>
          let (f, r) := on_file run (jsonl fs) in
          let fs' := {| jsonl := f; parquet := parquet fs |} in
          match r with
          | Raise e => Some (fs', Failed (Uncaught e))
          | Return _ =>
              match f with
              | None => Some (fs', Failed FileNotFoundError)
              | Some text =>
                  match read_ndjson text with
                  | None => Some (fs', Failed PolarsError)
                  | Some df =>
                      main_loop jobs rest
                        {| jsonl := f; parquet := parquet fs ++ [(parquet_name c, df)] |}
                  end
              end
          end
      end
  end.

Definition says_yes (answer : string) : bool :=
  String.eqb answer "y" || String.eqb answer "Y" || String.eqb answer EmptyString.

Definition says_no (answer : string) : bool :=
  String.eqb answer "n" || String.eqb answer "N".

(** [main]: [data_exists] tells whether the directory [data/] is there,
    [answer] is the line the user types if asked, [jobs] is the option
    [--jobs]. *)
Definition main (data_exists : bool) (answer : string) (jobs : Z)
    (captures : list capture) (fs : files) : option (files * ended) :=
  if negb data_exists then
    Some (fs, Failed (AssertionError
      "The 'data/' directory doesn't exist, but required. Run '--help' for more insights."))
  else
    match jsonl fs with
    | Some _ =>
        if says_yes answer then
          main_loop jobs captures {| jsonl := None; parquet := parquet fs |}
        else if says_no answer then Some (fs, Finished)
        else Some (fs, Failed (Exception ("'" ++ answer ++ "' was not in the options...")))
    | None => main_loop jobs captures fs
    end.

(** The packets of the captures, in the order in which they are read. *)
Definition all_packets (captures : list capture) : list pyshark.packet :=
  flat_map packets captures.

(** The [.parquet] files that a run over the captures writes when the file
    [pcap.jsonl] starts with [text]: each capture adds its lines, and its
    copy is taken of all the text there is by then. *)
Fixpoint exported (text : string) (captures : list capture)
  : list (string * option DataFrame) :=
  match captures with
  | [] => []
  | c :: rest =>
      let text' := text ++ in_decode_order (packets c) in
      (parquet_name c, read_ndjson text') :: exported text' rest
  end.
End Main.

(** The lines of a text, as a reader of the [.jsonl] file takes them: each
    ends at a line feed, which is dropped; what follows the last line feed
    is a line if it is not empty. *)
Fixpoint read_lines (s : string) : list string :=
  match s with
  | EmptyString => []
  | String c r =>
      if Ascii.eqb c LF then EmptyString :: read_lines r
      else
        match read_lines r with
        | [] => [String c EmptyString]
        | l :: ls => String c l :: ls
        end
  end.

(** The arguments that hand a model its own values back, each with the type
    of its field, and [ds] for [dsfield]. *)
Definition typed_args (pckt : Packet) (ds : pyobj) : Args.t :=
  {| Args.dsfield_dscp := PyInt (dsfield_dscp pckt);
     Args.hdr_len := PyInt (hdr_len pckt);
     Args.dsfield := ds;
     Args.dsfield_ecn := PyInt (dsfield_ecn pckt);
     Args.len := PyInt (len pckt);
     Args.proto := PyInt (proto pckt);
     Args.flags_df := PyInt (flags_df pckt);
     Args.flags_mf := PyInt (flags_mf pckt);
     Args.flags_rb := PyInt (flags_rb pckt);
     Args.frag_offset := PyInt (frag_offset pckt);
     Args.ttl := PyInt (ttl pckt);
     Args.src := PyStr (src pckt);
     Args.dst := PyStr (dst pckt);
     Args.srcport := PyInt (srcport pckt);
     Args.dstport := PyInt (dstport pckt);
     Args.sniff_timestamp := PyFloat (sniff_timestamp pckt) |}.

(** [format(z, 'x')]: an integer written in base 16, with its sign and
    without the prefix [0x]. *)
Definition hex_text (z : Z) : string :=
  match z with
  | Z0 => "0"
  | Zpos p => HexadecimalString.NilEmpty.string_of_uint (Pos.to_hex_uint p)
  | Zneg p => String "-" (HexadecimalString.NilEmpty.string_of_uint (Pos.to_hex_uint p))
  end.

(** What a validation may end with: a value, line errors (at least one,
    each about a field of the model), or an exception that [P] allows. *)
Definition classified {A : Type} (P : exn -> Prop) (x : validated A) : Prop :=
  match x with
  | Valid _ => True
  | Errors es => es <> [] /\ Forall (fun le => In (loc le) field_names) es
  | Raised e => P e
  end.

(** A text whose last line, if it has one, is closed by a line feed. *)
Fixpoint ends_with_line_feed (s : string) : bool :=
  match s with
  | EmptyString => true
  | String c EmptyString => Ascii.eqb c LF
  | String c r => ends_with_line_feed r
  end.

(** The packets that have an IP layer. *)
Definition with_ip (pcap : list pyshark.packet) : list pyshark.packet :=
  filter (fun packet => match pyshark.ip packet with Some _ => true | None => false end) pcap.

(** ** topology_analysis.py: [get_diameter]

    graph-tool is outside the repository: the function is modelled from
    the distances on, [rows] being the arrays [dist[v]] of the vertices in
    their order.  A set of integers is modelled by a list of its
    elements. *)
Definition INT32_MAX : Z := 2147483647.

Inductive builtin_error : Type :=
| KeyError (key : Z)
| ValueError_max_empty.

(** [s.remove(x)] *)
Definition set_remove (x : Z) (s : list Z) : builtin_error + list Z :=
  if existsb (Z.eqb x) s then inr (filter (fun y => negb (y =? x)) s)
  else inl (KeyError x).

(** [max(s)] *)
Definition py_max (s : list Z) : builtin_error + Z :=
  match s with
  | [] => inl ValueError_max_empty
  | x :: r => inr (fold_left Z.max r x)
  end.

Fixpoint diameter_loop (rows : list (list Z)) (diameter : Z) : builtin_error + Z :=
  match rows with
  | [] => inr diameter
  | row :: rest =>
      match set_remove INT32_MAX row with
      | inl e => inl e
      | inr sh_paths =>
          match py_max sh_paths with
          | inl e => inl e
          | inr temp =>
              diameter_loop rest (if temp >? diameter then temp else diameter)
          end
      end
  end.

Definition get_diameter (rows : list (list Z)) : builtin_error + Z :=
  diameter_loop rows 0.

(** A row with a distance that is not the mark of an unreachable vertex (a
    row of distances always has one, the distance 0 of the vertex to
    itself), and a row with the mark. *)
Definition has_distance (row : list Z) : bool :=
  existsb (fun x => negb (x =? INT32_MAX)) row.

Definition has_unreachable (row : list Z) : bool :=
  existsb (Z.eqb INT32_MAX) row.

(** The distances of the graph with the edges 0 -> 1 and 1 -> 2, and of the
    graph with the edges 0 -> 1 and 2 -> 3. *)
Definition path_distances : list (list Z) :=
  [ [0; 1; 2]; [INT32_MAX; 0; 1]; [INT32_MAX; INT32_MAX; 0] ].

Definition two_edges_distances : list (list Z) :=
  [ [0; 1; INT32_MAX; INT32_MAX]; [INT32_MAX; 0; INT32_MAX; INT32_MAX];
    [INT32_MAX; INT32_MAX; 0; 1]; [INT32_MAX; INT32_MAX; INT32_MAX; 0] ].

(** An instance of polars for the examples: the data frame is the list of
    the lines of the file. *)
Definition lines_as_frame : Polars :=
  {| DataFrame := list string; read_ndjson := fun text => Some (read_lines text) |}.

Definition first_capture : capture := Build_capture "monday" [tcp_packet; arp_packet].
Definition second_capture : capture := Build_capture "tuesday" [udp_packet].
Definition arp_capture : capture := Build_capture "quiet" [arp_packet].
Definition bad_capture : capture := Build_capture "broken" [icmp_packet; malformed_packet; udp_packet].

(** * Properties *)

(** ** Text without line feeds *)
Section OneLine.

Lemma no_line_feed_app (a b : string) :
  no_line_feed (a ++ b) = no_line_feed a && no_line_feed b.
Proof.
  induction a as [|c a IH]; cbn [append no_line_feed]; [reflexivity|].
  rewrite IH. now rewrite andb_assoc.
Qed.

Lemma no_line_feed_String (c : ascii) (s : string) :
  no_line_feed (String c s) = negb (Ascii.eqb c LF) && no_line_feed s.
Proof. reflexivity. Qed.

Lemma no_line_feed_ESCAPE_DCT (c : ascii) : no_line_feed (ESCAPE_DCT c) = true.
Proof.
  destruct c as [[] [] [] [] [] [] [] []]; vm_compute; reflexivity.
Qed.

Lemma no_line_feed_escape (s : string) : no_line_feed (escape s) = true.
Proof.
  induction s as [|c s IH]; cbn [escape]; [reflexivity|].
  now rewrite no_line_feed_app, no_line_feed_ESCAPE_DCT, IH.
Qed.

Lemma no_line_feed_encode_basestring (s : string) :
  no_line_feed (encode_basestring s) = true.
Proof.
  unfold encode_basestring.
  rewrite no_line_feed_String, no_line_feed_app, no_line_feed_escape.
  reflexivity.
Qed.

Lemma no_line_feed_string_of_uint (d : Decimal.uint) :
  no_line_feed (NilEmpty.string_of_uint d) = true.
Proof.
  induction d; cbn [NilEmpty.string_of_uint]; [reflexivity|..];
    rewrite no_line_feed_String, IHd; reflexivity.
Qed.

Lemma no_line_feed_int_repr (z : Z) : no_line_feed (int_repr z) = true.
Proof.
  assert (U : forall d, no_line_feed (NilZero.string_of_uint d) = true).
  { intros d. destruct d; try reflexivity; apply no_line_feed_string_of_uint. }
  unfold int_repr, NilZero.string_of_int.
  destruct (Z.to_int z) as [d|d]; [apply U|].
  rewrite no_line_feed_String. apply U.
Qed.

Lemma no_line_feed_concat (sep : string) (l : list string) :
  no_line_feed sep = true ->
  Forall (fun s => no_line_feed s = true) l ->
  no_line_feed (String.concat sep l) = true.
Proof.
  intros Hsep Hl.
  induction Hl as [|s l Hs Hl IH]; [reflexivity|].
  destruct l as [|s' l]; cbn [String.concat]; [exact Hs|].
  rewrite !no_line_feed_app, Hs, Hsep. exact IH.
Qed.

Lemma plain_float_json_one_line (f : float) :
  no_line_feed (plain_float_json f) = true.
Proof.
  unfold plain_float_json.
  destruct (Z_of_float f) as [z|]; [|reflexivity].
  destruct (Z.abs z <? 2 ^ 53); [|reflexivity].
  rewrite !no_line_feed_app, no_line_feed_int_repr.
  destruct f as [[]| | |[] ? ?]; reflexivity.
Qed.

End OneLine.

Definition plain : Library :=
  {| lax_int := plain_lax_int;
     lax_float := plain_lax_float;
     lax_str := fun _ => None;
     float_json := plain_float_json;
     float_json_one_line := plain_float_json_one_line |}.

(** ** When a model is valid *)

Lemma ap_Valid {A B : Type} (f : validated (A -> B)) (x : validated A) (b : B) :
  f <*> x = Valid b -> exists g a, f = Valid g /\ x = Valid a /\ b = g a.
Proof.
  destruct f as [g|es|e], x as [a|es'|e']; cbn; intros H; try discriminate.
  injection H as <-. now exists g, a.
Qed.

(** A field that raises does so whatever the fields before it recorded, as
    long as none of them raised. *)
Lemma ap_raise_right {A B : Type} (f : validated (A -> B)) (e : exn) :
  raises f = false -> f <*> Raised e = Raised e.
Proof. destruct f; cbn; intros; congruence. Qed.

Lemma raises_ap {A B : Type} (f : validated (A -> B)) (x : validated A) :
  raises (f <*> x) = raises f || raises x.
Proof. destruct f, x; reflexivity. Qed.

Section FieldLemmas.
Context {lib : Library}.

Lemma int_schema_no_raise (name : string) (v : pyobj) : raises (int_schema name v) = false.
Proof. unfold int_schema. destruct v; try reflexivity; destruct (lax_int _); reflexivity. Qed.

Lemma validator_pre_Valid (name : string) (v : pyobj) (z : Z) :
  validator_pre set_dsfield_int16 name v = Valid z <-> py_int v 16 = Return z.
Proof.
  unfold validator_pre, set_dsfield_int16.
  destruct (py_int v 16) as [z'|[msg|msg|es]]; cbn; split; intros H;
    try discriminate; congruence.
Qed.

Lemma validator_flags_rb_Valid (name : string) (v : pyobj) (z : Z) :
  validator int_schema flags_rb_must_be_zero name v = Valid z
  <-> int_schema name v = Valid z /\ z = 0.
Proof.
  unfold validator, flags_rb_must_be_zero.
  destruct (int_schema name v) as [z'|es|e]; cbn.
  - destruct (Z.eqb_spec z' 0) as [->|Hne]; cbn; split.
    + intros [= <-]. now split.
    + intros [[= <-] _]. reflexivity.
    + discriminate.
    + intros [[= ->] Hz]. contradiction.
  - split; [discriminate | intros [H _]; discriminate].
  - split; [discriminate | intros [H _]; discriminate].
Qed.

(** A value other than zero makes the validator of [flags_rb] raise. *)
Lemma validator_flags_rb_nonzero (name : string) (v : pyobj) (z : Z) :
  int_schema name v = Valid z -> z <> 0 ->
  validator int_schema flags_rb_must_be_zero name v
  = Raised (ValidationError_call "flags_rb must be zero.").
Proof.
  intros Hv Hz. unfold validator, flags_rb_must_be_zero. rewrite Hv.
  destruct (Z.eqb_spec z 0); [contradiction | reflexivity].
Qed.

(** [Packet(...)] returns exactly when every field is accepted, and the
    model then holds the accepted values. *)
Lemma Packet_init_Return (kw : Args.t) (pckt : Packet) :
  Packet_init kw = Return pckt <->
  int_schema "dsfield_dscp" (Args.dsfield_dscp kw) = Valid (dsfield_dscp pckt) /\
  int_schema "hdr_len" (Args.hdr_len kw) = Valid (hdr_len pckt) /\
  py_int (Args.dsfield kw) 16 = Return (dsfield pckt) /\
  int_schema "dsfield_ecn" (Args.dsfield_ecn kw) = Valid (dsfield_ecn pckt) /\
  int_schema "len" (Args.len kw) = Valid (len pckt) /\
  int_schema "proto" (Args.proto kw) = Valid (proto pckt) /\
  int_schema "flags_df" (Args.flags_df kw) = Valid (flags_df pckt) /\
  int_schema "flags_mf" (Args.flags_mf kw) = Valid (flags_mf pckt) /\
  (int_schema "flags_rb" (Args.flags_rb kw) = Valid (flags_rb pckt) /\ flags_rb pckt = 0) /\
  int_schema "frag_offset" (Args.frag_offset kw) = Valid (frag_offset pckt) /\
  int_schema "ttl" (Args.ttl kw) = Valid (ttl pckt) /\
  str_schema "src" (Args.src kw) = Valid (src pckt) /\
  str_schema "dst" (Args.dst kw) = Valid (dst pckt) /\
  int_schema "srcport" (Args.srcport kw) = Valid (srcport pckt) /\
  int_schema "dstport" (Args.dstport kw) = Valid (dstport pckt) /\
  float_schema "sniff_timestamp" (Args.sniff_timestamp kw) = Valid (sniff_timestamp pckt).
Proof.
  rewrite <- validator_pre_Valid with (name := "dsfield").
  rewrite <- validator_flags_rb_Valid.
  unfold Packet_init, model_validate. split.
  - destruct (_ <*> _) as [p|es|e] eqn:E; try discriminate.
    intros [= ->].
    repeat match type of E with
           | _ <*> _ = Valid _ =>
               apply ap_Valid in E; destruct E as (? & ? & E & ? & ->)
           end.
    injection E as <-. cbn. repeat split; assumption.
  - intros (H1 & H2 & H3 & H4 & H5 & H6 & H7 & H8 & H9 & H10 & H11 & H12
            & H13 & H14 & H15 & H16).
    rewrite H1, H2, H3, H4, H5, H6, H7, H8, H9, H10, H11, H12, H13, H14, H15, H16.
    cbn. destruct pckt; reflexivity.
Qed.
End FieldLemmas.

(** ** What [read_packet] does to the file *)

Section ReadPacket.
Context {lib : Library}.

Lemma read_packet_ip (packet : pyshark.packet) (ip : pyshark.ip_layer) (log : string) :
  pyshark.ip packet = Some ip ->
  read_packet packet log =
    match Packet_init (Packet_kwargs packet ip) with
    | Return pckt => (log ++ log_entry pckt, Return tt)
    | Raise e => (log, Raise e)
    end.
Proof.
  intros Hip. unfold read_packet. rewrite Hip.
  unfold bind, lift, jsonlines_write, log_entry.
  destruct (Packet_init _); reflexivity.
Qed.

Lemma read_packet_cases (packet : pyshark.packet) (log : string) :
  (pyshark.ip packet = None /\ read_packet packet log = (log, Return tt))
  \/ (exists ip pckt, pyshark.ip packet = Some ip
        /\ Packet_init (Packet_kwargs packet ip) = Return pckt
        /\ read_packet packet log = (log ++ log_entry pckt, Return tt))
  \/ (exists ip e, pyshark.ip packet = Some ip
        /\ Packet_init (Packet_kwargs packet ip) = Raise e
        /\ read_packet packet log = (log, Raise e)).
Proof.
  destruct (pyshark.ip packet) as [ip|] eqn:Hip.
  - right. rewrite (read_packet_ip packet ip log Hip).
    destruct (Packet_init _) as [pckt|e] eqn:E.
    + left. now exists ip, pckt.
    + right. now exists ip, e.
  - left. unfold read_packet. now rewrite Hip.
Qed.

(** C2. For a packet with an IP layer, the ports of the model that
    [read_packet] builds are those of the UDP layer when there is one,
    also when there is a TCP layer as well; else those of the TCP layer
    when there is one; else both are -1. *)
Theorem port_selection
    (packet : pyshark.packet) (ip : pyshark.ip_layer) (pckt : Packet) (log : string) :
  pyshark.ip packet = Some ip ->
  Packet_init (Packet_kwargs packet ip) = Return pckt ->
  read_packet packet log = (log ++ log_entry pckt, Return tt)
  /\ match pyshark.udp packet, pyshark.tcp packet with
     | Some udp, _ =>
         int_schema "srcport" (pyshark.srcport udp) = Valid (srcport pckt)
         /\ int_schema "dstport" (pyshark.dstport udp) = Valid (dstport pckt)
     | None, Some tcp =>
         int_schema "srcport" (pyshark.srcport tcp) = Valid (srcport pckt)
         /\ int_schema "dstport" (pyshark.dstport tcp) = Valid (dstport pckt)
     | None, None => srcport pckt = -1 /\ dstport pckt = -1
     end.
Proof.
  intros Hip H. split.
  { rewrite (read_packet_ip packet ip log Hip), H. reflexivity. }
  apply Packet_init_Return in H.
  destruct H as (_ & _ & _ & _ & _ & _ & _ & _ & _ & _ & _ & _ & _ & Hs & Hd & _).
  cbn in Hs, Hd.
  destruct (pyshark.udp packet) as [udp|]; [now split|].
  destruct (pyshark.tcp packet) as [tcp|]; [now split|].
  cbn in Hs, Hd. split; congruence.
Qed.

(** C4. A packet without an IP layer leaves the file as it was and
    [read_packet] returns: no line is added and nothing is raised. *)
Theorem read_packet_without_ip (packet : pyshark.packet) (log : string) :
  pyshark.ip packet = None -> read_packet packet log = (log, Return tt).
Proof.
  intros Hip. unfold read_packet. rewrite Hip. reflexivity.
Qed.
End ReadPacket.

(** ** The [dsfield] validator *)
Section Dsfield.
Context {lib : Library}.

Lemma Packet_init_with_dsfield (kw : Args.t) (pckt : Packet) (v : pyobj) (z : Z) :
  Packet_init kw = Return pckt -> py_int v 16 = Return z ->
  Packet_init (with_dsfield kw v) = Return (set_dsfield pckt z).
Proof.
  intros H Hv. apply Packet_init_Return in H. apply Packet_init_Return.
  cbn. intuition.
Qed.

Lemma Packet_init_bad_dsfield (kw : Args.t) (e : exn) :
  py_int (Args.dsfield kw) 16 = Raise e -> exists e', Packet_init kw = Raise e'.
Proof.
  intros Hv. destruct (Packet_init kw) as [pckt|e'] eqn:E; [|now exists e'].
  apply Packet_init_Return in E. destruct E as (_ & _ & E & _). congruence.
Qed.

Lemma hex_digit_plain (c : ascii) :
  is_hex_digit c = true ->
  PyLong.Py_ISSPACE c = false /\ Ascii.eqb c "_" = false
  /\ Ascii.eqb c "+" = false /\ Ascii.eqb c "-" = false
  /\ PyLong.is_prefix_letter 16 c = false /\ PyLong.to_ascii_char c = c.
Proof.
  destruct c as [[] [] [] [] [] [] [] []]; vm_compute; intros H;
    try discriminate H; repeat split.
Qed.

Lemma Transform_hex (s : string) :
  all_hex_digits s = true -> PyLong.TransformDecimalAndSpaceToASCII s = s.
Proof.
  induction s as [|c s IH]; cbn [all_hex_digits PyLong.TransformDecimalAndSpaceToASCII];
    [reflexivity|].
  intros H. apply andb_true_iff in H. destruct H as [Hc Hs].
  destruct (hex_digit_plain c Hc) as (_ & _ & _ & _ & _ & ->). now rewrite IH.
Qed.

Lemma scan_digits_hex (s : string) (acc : Z) (n : nat) :
  all_hex_digits s = true ->
  PyLong.scan_digits 16 s false acc n
  = Some (hex_value_from acc s, (n + String.length s)%nat, EmptyString).
Proof.
  revert acc n. induction s as [|c s IH]; intros acc n H.
  - cbn. now rewrite Nat.add_0_r.
  - cbn [all_hex_digits] in H. apply andb_true_iff in H. destruct H as [Hc Hs].
    destruct (hex_digit_plain c Hc) as (_ & Hu & _).
    cbn [PyLong.scan_digits hex_value_from String.length]. rewrite Hu.
    unfold is_hex_digit in Hc. rewrite Hc, (IH _ _ Hs).
    now rewrite Nat.add_succ_r.
Qed.

Lemma FromString_hex (s : string) :
  s <> EmptyString -> all_hex_digits s = true ->
  PyLong.FromString s 16 = Some (hex_value s).
Proof.
  intros Hne H. destruct s as [|c s]; [contradiction|].
  pose proof (scan_digits_hex (String c s) 0 0 H) as Hscan.
  cbn [all_hex_digits] in H. apply andb_true_iff in H. destruct H as [Hc Hs].
  destruct (hex_digit_plain c Hc) as (Hsp & Hu & Hplus & Hminus & _).
  unfold PyLong.FromString. cbn [PyLong.skip_spaces PyLong.skip_sign].
  rewrite Hsp. cbn [PyLong.skip_sign]. rewrite Hplus, Hminus.
  assert (Hpre : PyLong.skip_prefix 16 (String c s) = String c s).
  { destruct s as [|l r]; [reflexivity|].
    cbn [all_hex_digits] in Hs. apply andb_true_iff in Hs. destruct Hs as [Hl _].
    destruct (hex_digit_plain l Hl) as (_ & _ & _ & _ & Hp & _).
    cbn [PyLong.skip_prefix]. now rewrite Hp, andb_false_r. }
  rewrite Hpre. cbn [PyLong.begins_with_underscore]. rewrite Hu, Hscan.
  reflexivity.
Qed.

Lemma FromString_0x_hex (s : string) :
  s <> EmptyString -> all_hex_digits s = true ->
  PyLong.FromString ("0x" ++ s) 16 = Some (hex_value s).
Proof.
  intros Hne H. destruct s as [|c s]; [contradiction|].
  pose proof (scan_digits_hex (String c s) 0 0 H) as Hscan.
  cbn [all_hex_digits] in H. apply andb_true_iff in H. destruct H as [Hc Hs].
  destruct (hex_digit_plain c Hc) as (_ & Hu & _).
  assert (Hpre : PyLong.skip_prefix 16 (String "0" (String "x" (String c s)))
                 = String c s).
  { unfold PyLong.skip_prefix.
    change (Ascii.eqb "0" "0" && PyLong.is_prefix_letter 16 "x") with true.
    cbv iota. now rewrite Hu. }
  unfold PyLong.FromString.
  change (PyLong.skip_sign (PyLong.skip_spaces ("0x" ++ String c s)))
    with (false, String "0" (String "x" (String c s))).
  cbv iota. rewrite Hpre. cbn [PyLong.begins_with_underscore].
  rewrite Hu, Hscan. reflexivity.
Qed.

(** C3. The [dsfield] of a model is the input read as a base-16 literal: a
    string of hexadecimal digits, with or without [0x] in front, is read as
    the number it stands for.  Whenever the other arguments are acceptable,
    the input ["1a"] gives a model with [dsfield = 26] and the input
    ["0xFF"] one with [dsfield = 255]; the input ["zz"] makes [Packet(...)]
    raise, and [read_packet] then raises and leaves the file as it was. *)
Theorem dsfield_base16 :
  (forall kw pckt, Packet_init kw = Return pckt ->
     py_int (Args.dsfield kw) 16 = Return (dsfield pckt))
  /\ (forall s, s <> EmptyString -> all_hex_digits s = true ->
        set_dsfield_int16 (PyStr s) = Return (hex_value s)
        /\ set_dsfield_int16 (PyStr ("0x" ++ s)) = Return (hex_value s))
  /\ (forall kw pckt, Packet_init kw = Return pckt ->
        Packet_init (with_dsfield kw (PyStr "1a")) = Return (set_dsfield pckt 26))
  /\ (forall kw pckt, Packet_init kw = Return pckt ->
        Packet_init (with_dsfield kw (PyStr "0xFF")) = Return (set_dsfield pckt 255))
  /\ (forall kw, Args.dsfield kw = PyStr "zz" -> exists e, Packet_init kw = Raise e)
  /\ (forall packet ip log, pyshark.ip packet = Some ip ->
        pyshark.dsfield ip = PyStr "zz" ->
        exists e, read_packet packet log = (log, Raise e)).
Proof.
  split; [|split; [|split; [|split; [|split]]]].
  - intros kw pckt H. apply Packet_init_Return in H. tauto.
  - intros s Hne H. unfold set_dsfield_int16, py_int. split.
    + now rewrite (Transform_hex s H), (FromString_hex s Hne H).
    + change (PyLong.TransformDecimalAndSpaceToASCII ("0x" ++ s))
        with ("0x" ++ PyLong.TransformDecimalAndSpaceToASCII s).
      now rewrite (Transform_hex s H), (FromString_0x_hex s Hne H).
  - intros kw pckt H. now apply Packet_init_with_dsfield.
  - intros kw pckt H. now apply Packet_init_with_dsfield.
  - intros kw Hd.
    apply (Packet_init_bad_dsfield kw (ValueError "invalid literal for int()")).
    now rewrite Hd.
  - intros packet ip log Hip Hd.
    rewrite (read_packet_ip packet ip log Hip).
    destruct (Packet_init_bad_dsfield (Packet_kwargs packet ip)
                (ValueError "invalid literal for int()")) as [e ->].
    + cbn. now rewrite Hd.
    + now exists e.
Qed.

Lemma py_int_non_string (v : pyobj) (base : Z) :
  non_string v = true ->
  py_int v base = Raise (TypeError "int() can't convert non-string with explicit base").
Proof. destruct v; cbn; intros H; try discriminate; reflexivity. Qed.

(** An object that is neither a [str] nor a byte string makes the call
    [Packet(...)] raise the [TypeError] of [int(v, 16)], whatever the other
    arguments are. *)
Lemma Packet_init_non_string_dsfield (kw : Args.t) :
  non_string (Args.dsfield kw) = true ->
  Packet_init kw
  = Raise (TypeError "int() can't convert non-string with explicit base").
Proof.
  intros Hns. unfold Packet_init, model_validate.
  assert (E : validator_pre set_dsfield_int16 "dsfield" (Args.dsfield kw)
              = Raised (TypeError "int() can't convert non-string with explicit base")).
  { unfold validator_pre, set_dsfield_int16.
    now rewrite (py_int_non_string _ 16 Hns). }
  rewrite E, ap_raise_right; [reflexivity|].
  now rewrite !raises_ap, !int_schema_no_raise.
Qed.

Lemma Transform_below_127 (s : string) :
  all_below_127 s = true -> PyLong.TransformDecimalAndSpaceToASCII s = s.
Proof.
  induction s as [|c s IH]; intros H; [reflexivity|].
  cbn [all_below_127] in H. apply andb_true_iff in H. destruct H as [Hc Hs].
  cbn [PyLong.TransformDecimalAndSpaceToASCII]. rewrite (IH Hs).
  unfold PyLong.to_ascii_char. now rewrite Hc.
Qed.

(** C10, as the code has it. The type of [dsfield] is checked by
    [int(v, 16)] and by nothing else.  When [dsfield] is neither a [str] nor
    a byte string (so an [int], a [float], a [bool] or [None]), the call
    [Packet(...)] raises the [TypeError] of [int(v, 16)], whatever the other
    arguments are.  A byte string is not refused for its type: one made of
    hexadecimal digits, with or without [0x] in front, is read as the
    number it stands for, and the model is built whenever the other
    arguments are acceptable.  The validator gives for a byte string of
    bytes below 127 what it gives for the [str] of the same characters;
    beyond them the two part: a no-break space in front of [1a] is skipped
    in a [str] and is an invalid literal in a byte string. *)
Theorem dsfield_type_is_checked_by_int :
  (forall kw, non_string (Args.dsfield kw) = true ->
     Packet_init kw
     = Raise (TypeError "int() can't convert non-string with explicit base"))
  /\ (forall kw pckt s,
        s <> EmptyString -> all_hex_digits s = true ->
        Packet_init kw = Return pckt ->
        Packet_init (with_dsfield kw (PyBytes s)) = Return (set_dsfield pckt (hex_value s))
        /\ Packet_init (with_dsfield kw (PyBytes ("0x" ++ s)))
           = Return (set_dsfield pckt (hex_value s)))
  /\ (forall b, all_below_127 b = true ->
        set_dsfield_int16 (PyBytes b) = set_dsfield_int16 (PyStr b))
  /\ set_dsfield_int16 (PyStr (String NBSP "1a")) = Return 26
  /\ set_dsfield_int16 (PyBytes (String NBSP "1a"))
     = Raise (ValueError "invalid literal for int()").
Proof.
  split; [exact Packet_init_non_string_dsfield|].
  split; [|split; [|split; reflexivity]].
  - intros kw pckt s Hne H Hp. split.
    + apply (Packet_init_with_dsfield _ _ _ _ Hp). unfold py_int.
      now rewrite (FromString_hex s Hne H).
    + apply (Packet_init_with_dsfield _ _ _ _ Hp). unfold py_int.
      now rewrite (FromString_0x_hex s Hne H).
  - intros b Hb. unfold set_dsfield_int16, py_int.
    now rewrite (Transform_below_127 b Hb).
Qed.
End Dsfield.

(** ** The [flags_rb] validator *)

Section FlagsRb.
Context {lib : Library}.

Lemma verdict_ap {A B : Type} (f : validated (A -> B)) (x : validated A) :
  verdict_of (f <*> x) = join_verdicts (verdict_of f) (verdict_of x).
Proof. destruct f, x; reflexivity. Qed.

Lemma verdict_Valid {A : Type} (x : validated A) (a : A) :
  x = Valid a -> verdict_of x = Accepted.
Proof. now intros ->. Qed.

Lemma Packet_init_verdict (kw : Args.t) :
  Packet_init kw =
    match verdict_of (model_validate kw) with
    | Accepted => Packet_init kw
    | Rejected es => Raise (ValidationError es)
    | Raising e => Raise e
    end.
Proof. unfold Packet_init. destruct (model_validate kw); reflexivity. Qed.

(** C9, as the code has it. When [flags_rb] is read as a value other than
    0, [Packet(...)] raises, and what it raises tells nothing of the
    packet's time stamp and addresses: two packets that differ in nothing
    but the time stamp, the source and the destination, each acceptable to
    its field, are rejected with one and the same exception. *)
Theorem flags_rb_rejection_is_blind_to_diagnostics (kw kw' : Args.t) (v : Z) :
  int_schema "flags_rb" (Args.flags_rb kw) = Valid v -> v <> 0 ->
  but_diagnostics kw' = but_diagnostics kw ->
  diagnostics_accepted kw -> diagnostics_accepted kw' ->
  exists e, Packet_init kw = Raise e /\ Packet_init kw' = Raise e.
Proof.
  intros Hv Hne Heq (Hs & Hd & Ht) (Hs' & Hd' & Ht').
  assert (Hsame : verdict_of (model_validate kw') = verdict_of (model_validate kw)).
  { destruct kw as [a1 a2 a3 a4 a5 a6 a7 a8 a9 a10 a11 a12 a13 a14 a15 a16].
    destruct kw' as [b1 b2 b3 b4 b5 b6 b7 b8 b9 b10 b11 b12 b13 b14 b15 b16].
    unfold but_diagnostics in Heq. cbn in Heq, Hs, Hd, Ht, Hs', Hd', Ht'.
    injection Heq as -> -> -> -> -> -> -> -> -> -> -> -> ->.
    destruct Hs as [s Hs], Hd as [d Hd], Ht as [t Ht].
    destruct Hs' as [s' Hs'], Hd' as [d' Hd'], Ht' as [t' Ht'].
    unfold model_validate. cbn [Args.dsfield_dscp Args.hdr_len
      Args.dsfield Args.dsfield_ecn Args.len Args.proto Args.flags_df
      Args.flags_mf Args.flags_rb Args.frag_offset Args.ttl Args.src Args.dst
      Args.srcport Args.dstport Args.sniff_timestamp].
    rewrite !verdict_ap.
    now rewrite (verdict_Valid _ _ Hs), (verdict_Valid _ _ Hd), (verdict_Valid _ _ Ht),
      (verdict_Valid _ _ Hs'), (verdict_Valid _ _ Hd'), (verdict_Valid _ _ Ht'). }
  destruct (Packet_init kw) as [pckt|e] eqn:E.
  - apply Packet_init_Return in E.
    destruct E as (_ & _ & _ & _ & _ & _ & _ & _ & (Hrb & Hz) & _). congruence.
  - exists e. split; [reflexivity|].
    rewrite Packet_init_verdict, Hsame. unfold Packet_init in E.
    destruct (model_validate kw) as [p|es|e0]; cbn [verdict_of];
      [discriminate E | exact E | exact E].
Qed.
End FlagsRb.

(** ** The run over a capture with one job *)

Lemma append_nil_r (s : string) : s ++ EmptyString = s.
Proof. induction s as [|c s IH]; cbn; [reflexivity | now rewrite IH]. Qed.

Lemma append_assoc (a b c : string) : (a ++ b) ++ c = a ++ b ++ c.
Proof. induction a as [|x a IH]; cbn; [reflexivity | now rewrite IH]. Qed.

Section ReadPcap.
Context {lib : Library}.

Lemma read_packet_run (packet : pyshark.packet) (log : string) :
  read_packet packet log =
    match rejection packet with
    | Some e => (log, Raise e)
    | None => (log ++ appended packet, Return tt)
    end.
Proof.
  unfold rejection, appended.
  destruct (pyshark.ip packet) as [ip|] eqn:Hip.
  - rewrite (read_packet_ip packet ip log Hip).
    destruct (Packet_init _); reflexivity.
  - unfold read_packet. rewrite Hip. cbn. now rewrite append_nil_r.
Qed.

Lemma Parallel_sequential_run (pcap : list pyshark.packet) (log : string) :
  Parallel_sequential (map read_packet pcap) log =
    (log ++ in_decode_order (accepted_prefix pcap),
     match first_rejection pcap with
     | Some e => Raise e
     | None => Return tt
     end).
Proof.
  revert log. induction pcap as [|packet rest IH]; intros log; cbn.
  - now rewrite append_nil_r.
  - unfold bind. rewrite read_packet_run.
    destruct (rejection packet) as [e|]; cbn.
    + now rewrite append_nil_r.
    + now rewrite IH, append_assoc.
Qed.

Lemma in_decode_order_lines (pcap : list pyshark.packet) :
  in_decode_order pcap = lines (models_of pcap).
Proof.
  induction pcap as [|packet pcap IH]; [reflexivity|].
  cbn [in_decode_order fold_right models_of flat_map].
  fold (in_decode_order pcap). fold (models_of pcap). rewrite IH.
  unfold appended.
  destruct (pyshark.ip packet) as [ip|]; [|reflexivity].
  destruct (Packet_init _) as [pckt|e]; reflexivity.
Qed.

Lemma accepted_prefix_is_prefix (pcap : list pyshark.packet) :
  exists rest, pcap = (accepted_prefix pcap ++ rest)%list.
Proof.
  induction pcap as [|packet pcap [rest IH]]; cbn.
  - now exists [].
  - destruct (rejection packet).
    + now exists (packet :: pcap).
    + exists rest. cbn. now rewrite <- IH.
Qed.

Lemma accepted_prefix_all (pcap : list pyshark.packet) :
  first_rejection pcap = None -> accepted_prefix pcap = pcap.
Proof.
  induction pcap as [|packet pcap IH]; cbn; [reflexivity|].
  destruct (rejection packet); [discriminate|].
  intros H. now rewrite IH.
Qed.

Lemma accepted_prefix_app (before after : list pyshark.packet) (bad : pyshark.packet) (e : exn) :
  Forall (fun packet => rejection packet = None) before ->
  rejection bad = Some e ->
  accepted_prefix (before ++ bad :: after)%list = before
  /\ first_rejection (before ++ bad :: after)%list = Some e.
Proof.
  intros Hb He. induction Hb as [|packet before Hp Hb [IH1 IH2]]; cbn.
  - now rewrite He.
  - rewrite Hp, IH1. now split.
Qed.

(** C6. With [n_jobs = 1] the run is a function of the capture and of the
    file it starts from, so two runs give the same file; and the lines it
    adds are those of the packets decoded up to the first rejected one,
    which are all the packets when none is rejected, in the order in which
    the packets are decoded. *)
Theorem sequential_run_in_decode_order (pcap : list pyshark.packet) :
  exists run,
    read_pcap pcap 1 = Some run
    /\ (forall run', read_pcap pcap 1 = Some run' -> run' = run)
    /\ (forall log,
          run log = (log ++ in_decode_order (accepted_prefix pcap),
                     match first_rejection pcap with
                     | Some e => Raise e
                     | None => Return tt
                     end))
    /\ (exists rest, pcap = (accepted_prefix pcap ++ rest)%list)
    /\ (first_rejection pcap = None -> accepted_prefix pcap = pcap).
Proof.
  exists (Parallel_sequential (map read_packet pcap)).
  split; [reflexivity|]. split; [|split; [|split]].
  - intros run' H. unfold read_pcap in H. cbn in H. congruence.
  - apply Parallel_sequential_run.
  - apply accepted_prefix_is_prefix.
  - apply accepted_prefix_all.
Qed.

(** C5, as the code has it. A packet that [Packet(...)] rejects makes
    [read_packet] raise, and nothing catches the exception: with
    [n_jobs = 1] the run over a capture raises it at the first rejected
    packet.  The lines of the packets decoded before it are in the file,
    in order; nothing is written for the rejected packet nor for the
    packets after it. *)
Theorem rejection_stops_sequential_run
    (before after : list pyshark.packet) (bad : pyshark.packet) (e : exn) (log : string) :
  Forall (fun packet => rejection packet = None) before ->
  rejection bad = Some e ->
  (forall log0, read_packet bad log0 = (log0, Raise e))
  /\ exists run,
       read_pcap (before ++ bad :: after)%list 1 = Some run
       /\ run log = (log ++ in_decode_order before, Raise e).
Proof.
  intros Hb He. split.
  - intros log0. now rewrite read_packet_run, He.
  - exists (Parallel_sequential (map read_packet (before ++ bad :: after)%list)).
    split; [reflexivity|].
    rewrite Parallel_sequential_run.
    destruct (accepted_prefix_app before after bad e Hb He) as [-> ->].
    reflexivity.
Qed.
End ReadPcap.

(** ** The lines of the file *)
Section LogFormat.
Context {lib : Library}.

Lemma no_line_feed_encode_value (v : jvalue) : no_line_feed (encode_value v) = true.
Proof.
  destruct v; cbn.
  - apply no_line_feed_int_repr.
  - apply float_json_one_line.
  - apply no_line_feed_encode_basestring.
Qed.

Lemma no_line_feed_json_dumps (d : pydict) : no_line_feed (json_dumps d) = true.
Proof.
  unfold json_dumps.
  change ("{" ++ String.concat ", " (map encode_item d) ++ "}")
    with (String "{" (String.concat ", " (map encode_item d) ++ "}")).
  rewrite no_line_feed_String, no_line_feed_app, no_line_feed_concat; try reflexivity.
  apply Forall_forall. intros s Hs. apply in_map_iff in Hs.
  destruct Hs as ([k v] & <- & _). unfold encode_item.
  rewrite !no_line_feed_app, no_line_feed_encode_basestring, no_line_feed_encode_value.
  reflexivity.
Qed.

End LogFormat.

(** ** The invariant of the records *)
Section Invariant.
Context {lib : Library}.

(** C1. Every model that [Packet(...)] returns has [flags_rb = 0], and the
    input it was given for that field is one the [int] field reads as 0;
    an input read as another value makes the call raise, so no model is
    produced; and whatever [read_packet] adds to the file is the line of a
    model whose [flags_rb] is 0, while a packet whose [flags_rb] is read
    as another value leaves the file as it was and raises.  So a run with
    one job from an empty file leaves the lines of models that all have
    [flags_rb = 0]. *)
Theorem flags_rb_zero_or_rejected :
  (forall kw pckt, Packet_init kw = Return pckt ->
     flags_rb pckt = 0 /\ int_schema "flags_rb" (Args.flags_rb kw) = Valid 0)
  /\ (forall kw v, int_schema "flags_rb" (Args.flags_rb kw) = Valid v -> v <> 0 ->
        exists e, Packet_init kw = Raise e)
  /\ (forall packet log log' r, read_packet packet log = (log', r) ->
        log' = log
        \/ exists pckt, log' = log ++ log_entry pckt /\ flags_rb pckt = 0
                        /\ In ("flags_rb", JInt 0) (model_dump pckt))
  /\ (forall packet ip v log, pyshark.ip packet = Some ip ->
        int_schema "flags_rb" (pyshark.flags_rb ip) = Valid v -> v <> 0 ->
        exists e, read_packet packet log = (log, Raise e))
  /\ (forall pcap, exists run,
        read_pcap pcap 1 = Some run
        /\ fst (run EmptyString) = lines (models_of (accepted_prefix pcap))
        /\ Forall (fun pckt => flags_rb pckt = 0) (models_of (accepted_prefix pcap))).
Proof.
  assert (A : forall kw pckt, Packet_init kw = Return pckt ->
     flags_rb pckt = 0 /\ int_schema "flags_rb" (Args.flags_rb kw) = Valid 0).
  { intros kw pckt H. apply Packet_init_Return in H.
    destruct H as (_ & _ & _ & _ & _ & _ & _ & _ & (Hrb & Hz) & _).
    split; [exact Hz | now rewrite <- Hz]. }
  assert (B : forall kw v, int_schema "flags_rb" (Args.flags_rb kw) = Valid v -> v <> 0 ->
        exists e, Packet_init kw = Raise e).
  { intros kw v Hv Hne. destruct (Packet_init kw) as [pckt|e] eqn:E.
    - destruct (A kw pckt E) as [_ H0]. congruence.
    - now exists e. }
  split; [exact A | split; [exact B | split; [|split]]].
  - intros packet log log' r H.
    destruct (read_packet_cases packet log)
      as [[_ E] | [(ip & pckt & _ & Hp & E) | (ip & e & _ & _ & E)]];
      rewrite E in H; injection H as <- <-; try (now left).
    right. exists pckt. destruct (A _ _ Hp) as [Hz _].
    split; [reflexivity | split; [exact Hz|]].
    unfold model_dump. rewrite Hz. cbn. tauto.
  - intros packet ip v log Hip Hv Hne.
    rewrite (read_packet_ip packet ip log Hip).
    destruct (B (Packet_kwargs packet ip) v Hv Hne) as [e ->]. now exists e.
  - intros pcap. exists (Parallel_sequential (map read_packet pcap)).
    split; [reflexivity|]. split.
    + rewrite Parallel_sequential_run. cbn [fst append].
      apply in_decode_order_lines.
    + apply Forall_forall. intros pckt Hin.
      apply in_flat_map in Hin. destruct Hin as (packet & _ & Hin).
      destruct (pyshark.ip packet) as [ip|]; [|contradiction].
      destruct (Packet_init _) as [p|e] eqn:E; [|contradiction].
      destruct Hin as [<-|[]]. now apply (A _ _ E).
Qed.
End Invariant.

(** ** The pipeline on the example packets *)

Example FromString_literals :
  map (fun s => PyLong.FromString s 16)
      [ "1a"; "0xFF"; "zz"; " -0x_1_a "; "0x"; "1__a"; "1a_"; "_1a"; "+ff";
        "- 1"; "0x__1"; "0"; "1a 2"; "0b1" ]
  = [ Some 26; Some 255; None; Some (-26); None; None; None; None; Some 255;
      None; None; Some 0; None; Some 177 ].
Proof. reflexivity. Qed.

Example read_udp_packet :
  read_packet (lib := plain) udp_packet EmptyString
  = (json_dumps (lib := plain)
       [ ("dsfield_dscp", JInt 0); ("hdr_len", JInt 20); ("dsfield", JInt 0);
         ("dsfield_ecn", JInt 0); ("len", JInt 60); ("proto", JInt 17);
         ("flags_df", JInt 1); ("flags_mf", JInt 0); ("flags_rb", JInt 0);
         ("frag_offset", JInt 0); ("ttl", JInt 64); ("src", JStr "10.0.0.1");
         ("dst", JStr "10.0.0.2"); ("srcport", JInt 40000); ("dstport", JInt 53);
         ("sniff_timestamp", JFloat (binary_normalize 53 1024 1700000000 0 false)) ]
     ++ String LF EmptyString,
     Return tt).
Proof. vm_compute. reflexivity. Qed.

Example read_icmp_packet :
  read_packet (lib := plain) icmp_packet EmptyString
  = (log_entry (lib := plain) (example_model 255 (-1) (-1) 1700000003), Return tt).
Proof. vm_compute. reflexivity. Qed.

Example dsfield_member_of_tcp_packet :
  encode_item (lib := plain) ("dsfield", JInt 26)
  = String DQUOTE ("dsfield" ++ String DQUOTE ": 26")
  /\ exists rest,
       fst (read_packet (lib := plain) tcp_packet EmptyString)
       = String "{" (String DQUOTE ("dsfield_dscp" ++ String DQUOTE (": 0, " ++ rest))).
Proof. split; [reflexivity|]. eexists. vm_compute. reflexivity. Qed.

Lemma flags_rb_zero_or_rejected_witness :
  (flags_rb (example_model 0 40000 53 1700000000) = 0
   /\ int_schema (lib := plain) "flags_rb" (Args.flags_rb example_args_ok) = Valid 0)
  /\ (exists e, Packet_init (lib := plain)
                  (example_args "1700000005" "10.0.0.1" "10.0.0.2" "64" "1") = Raise e).
Proof.
  split.
  - apply (proj1 (flags_rb_zero_or_rejected (lib := plain)) example_args_ok).
    vm_compute. reflexivity.
  - apply (proj1 (proj2 (flags_rb_zero_or_rejected (lib := plain))) _ 1).
    + vm_compute. reflexivity.
    + discriminate.
Defined.

Lemma port_selection_witness :
  read_packet (lib := plain) udp_and_tcp_packet EmptyString
  = (log_entry (lib := plain) (example_model 0 40000 53 1700000001), Return tt)
  /\ int_schema (lib := plain) "srcport" (PyStr "40000") = Valid 40000
  /\ int_schema (lib := plain) "dstport" (PyStr "53") = Valid 53.
Proof.
  apply (port_selection (lib := plain) udp_and_tcp_packet
           (example_ip (PyStr "0x00") (PyStr "0"))
           (example_model 0 40000 53 1700000001) EmptyString).
  - reflexivity.
  - vm_compute. reflexivity.
Defined.

Lemma dsfield_base16_witness :
  Packet_init (lib := plain) (with_dsfield example_args_ok (PyStr "1a"))
  = Return (set_dsfield (example_model 0 40000 53 1700000000) 26)
  /\ Packet_init (lib := plain) (with_dsfield example_args_ok (PyStr "0xFF"))
     = Return (set_dsfield (example_model 0 40000 53 1700000000) 255)
  /\ exists e, read_packet (lib := plain) malformed_packet EmptyString = (EmptyString, Raise e).
Proof.
  assert (H : Packet_init (lib := plain) example_args_ok
              = Return (example_model 0 40000 53 1700000000))
    by (vm_compute; reflexivity).
  split; [|split].
  - exact (proj1 (proj2 (proj2 (dsfield_base16 (lib := plain)))) _ _ H).
  - exact (proj1 (proj2 (proj2 (proj2 (dsfield_base16 (lib := plain))))) _ _ H).
  - apply (proj2 (proj2 (proj2 (proj2 (proj2 (dsfield_base16 (lib := plain))))))
             malformed_packet (example_ip (PyStr "zz") (PyStr "0")));
      reflexivity.
Defined.

Lemma read_packet_without_ip_witness :
  read_packet (lib := plain) arp_packet "earlier lines" = ("earlier lines", Return tt).
Proof.
  apply (read_packet_without_ip (lib := plain)). reflexivity.
Defined.

(** C5, as the spec has it, fails: the packet with a malformed [dsfield]
    and the one with the reserved bit set make [read_packet] raise, and a
    run with one job over a capture that holds one of them stops there: the
    UDP packet decoded after it, which alone gives a line, is not written. *)
Lemma rejection_leaves_read_packet_and_halts_the_run :
  read_packet (lib := plain) malformed_packet EmptyString
  = (EmptyString,
     Raise (ValidationError
              [mk_line_error "dsfield" (value_error "invalid literal for int()")
                 (PyStr "zz")]))
  /\ read_packet (lib := plain) reserved_bit_packet EmptyString
     = (EmptyString, Raise (TypeError "No constructor defined for ValidationError"))
  /\ read_packet (lib := plain) udp_packet EmptyString
     = (log_entry (lib := plain) (example_model 0 40000 53 1700000000), Return tt)
  /\ option_map (fun run => run EmptyString)
       (read_pcap (lib := plain) [malformed_packet; udp_packet] 1)
     = Some (EmptyString,
             Raise (ValidationError
                      [mk_line_error "dsfield" (value_error "invalid literal for int()")
                         (PyStr "zz")]))
  /\ option_map (fun run => run EmptyString)
       (read_pcap (lib := plain) [tcp_packet; reserved_bit_packet; udp_packet] 1)
     = Some (log_entry (lib := plain) (example_model 26 51234 80 1700000002),
             Raise (TypeError "No constructor defined for ValidationError")).
Proof.
  repeat split; vm_compute; reflexivity.
Qed.

Lemma rejection_stops_sequential_run_witness :
  (forall log0,
     read_packet (lib := plain) malformed_packet log0
     = (log0,
        Raise (ValidationError
                 [mk_line_error "dsfield" (value_error "invalid literal for int()")
                    (PyStr "zz")])))
  /\ exists run,
       read_pcap (lib := plain) [tcp_packet; arp_packet; malformed_packet; udp_packet] 1
       = Some run
       /\ run EmptyString
          = (EmptyString ++ in_decode_order (lib := plain) [tcp_packet; arp_packet],
             Raise (ValidationError
                      [mk_line_error "dsfield" (value_error "invalid literal for int()")
                         (PyStr "zz")])).
Proof.
  apply (rejection_stops_sequential_run (lib := plain)
           [tcp_packet; arp_packet] [udp_packet] malformed_packet).
  - repeat constructor.
  - vm_compute. reflexivity.
Defined.

(** C9, as the spec has it, fails: two packets with the reserved bit set
    that differ in time stamp and in both addresses are rejected with one
    and the same exception, so the exception holds none of the three. *)
Lemma flags_rb_rejections_are_alike :
  Packet_init (lib := plain) (example_args "1700000005" "10.0.0.1" "10.0.0.2" "64" "1")
  = Packet_init (lib := plain) (example_args "1700009999" "192.168.1.7" "192.168.1.9" "64" "1")
  /\ exists e,
       Packet_init (lib := plain) (example_args "1700000005" "10.0.0.1" "10.0.0.2" "64" "1")
       = Raise e.
Proof.
  split; [vm_compute; reflexivity|]. eexists. vm_compute. reflexivity.
Qed.

Lemma flags_rb_rejection_is_blind_to_diagnostics_witness :
  exists e,
    Packet_init (lib := plain) (example_args "1700000005" "10.0.0.1" "10.0.0.2" "64" "1")
    = Raise e
    /\ Packet_init (lib := plain)
         (example_args "1700009999" "192.168.1.7" "192.168.1.9" "64" "1")
       = Raise e.
Proof.
  apply (flags_rb_rejection_is_blind_to_diagnostics (lib := plain) _ _ 1).
  - vm_compute. reflexivity.
  - discriminate.
  - reflexivity.
  - repeat split; eexists; reflexivity.
  - repeat split; eexists; reflexivity.
Defined.

(** C10, as stated, fails: a [bytes] object is no [str], and [int(v, 16)]
    reads it all the same, so the model is built. *)
Lemma bytes_dsfield_is_accepted :
  Packet_init (lib := plain) (with_dsfield example_args_ok (PyBytes "1a"))
  = Return (set_dsfield (example_model 0 40000 53 1700000000) 26).
Proof.
  vm_compute. reflexivity.
Qed.

Lemma dsfield_type_is_checked_by_int_witness :
  Packet_init (lib := plain) (with_dsfield example_args_ok (PyInt 26))
  = Raise (TypeError "int() can't convert non-string with explicit base")
  /\ Packet_init (lib := plain) (with_dsfield example_args_ok (PyBytes "fc"))
     = Return (set_dsfield (example_model 0 40000 53 1700000000) (hex_value "fc"))
  /\ Packet_init (lib := plain) (with_dsfield example_args_ok (PyBytes ("0x" ++ "fc")))
     = Return (set_dsfield (example_model 0 40000 53 1700000000) (hex_value "fc"))
  /\ set_dsfield_int16 (PyBytes " 0x_f_c ") = set_dsfield_int16 (PyStr " 0x_f_c ").
Proof.
  split; [|split].
  - apply (proj1 (dsfield_type_is_checked_by_int (lib := plain))). reflexivity.
  - apply (proj1 (proj2 (dsfield_type_is_checked_by_int (lib := plain)))).
    + discriminate.
    + reflexivity.
    + vm_compute. reflexivity.
  - split.
    + apply (proj1 (proj2 (dsfield_type_is_checked_by_int (lib := plain)))).
      * discriminate.
      * reflexivity.
      * vm_compute. reflexivity.
    + apply (proj1 (proj2 (proj2 (dsfield_type_is_checked_by_int (lib := plain))))).
      reflexivity.
Defined.

(** * Further properties *)

(** ** [main] of extract_packets.py *)
Section MainProperties.
Context {lib : Library} {polars : Polars}.

Lemma in_decode_order_app (a b : list pyshark.packet) :
  in_decode_order (a ++ b)%list = in_decode_order a ++ in_decode_order b.
Proof.
  induction a as [|packet a IH]; [reflexivity|].
  cbn [app in_decode_order fold_right]. fold (in_decode_order (a ++ b)%list).
  fold (in_decode_order a). now rewrite IH, append_assoc.
Qed.

Lemma log_entry_not_empty (pckt : Packet) : log_entry pckt <> EmptyString.
Proof.
  unfold log_entry, json_dumps. cbn. discriminate.
Qed.

Lemma in_decode_order_empty (pcap : list pyshark.packet) :
  models_of pcap = [] -> in_decode_order pcap = EmptyString.
Proof. intros H. now rewrite in_decode_order_lines, H. Qed.

Lemma content_on_file (run : IO unit) (f : option string) :
  content (fst (on_file run f)) = fst (run (content f)).
Proof.
  unfold on_file. destruct (run (content f)) as [text r].
  destruct f; [reflexivity|]. destruct text; reflexivity.
Qed.

Lemma snd_on_file (run : IO unit) (f : option string) :
  snd (on_file run f) = snd (run (content f)).
Proof. unfold on_file. now destruct (run (content f)). Qed.

(** One turn of the loop, when the capture is read without a rejection and
    polars reads the file. *)
Lemma main_loop_step (c : capture) (rest : list capture) (fs : files) :
  main_loop 1 (c :: rest) fs =
    let f := fst (on_file (Parallel_sequential (map read_packet (packets c))) (jsonl fs)) in
    match first_rejection (packets c) with
    | Some e => Some ({| jsonl := f; parquet := parquet fs |}, Failed (Uncaught e))
    | None =>
        match f with
        | None => Some ({| jsonl := f; parquet := parquet fs |}, Failed FileNotFoundError)
        | Some text =>
            match read_ndjson text with
            | None => Some ({| jsonl := f; parquet := parquet fs |}, Failed PolarsError)
            | Some df =>
                main_loop 1 rest
                  {| jsonl := f; parquet := parquet fs ++ [(parquet_name c, df)] |}
            end
        end
    end.
Proof.
  cbn [main_loop]. unfold read_pcap. cbn [Z.eqb Pos.eqb].
  pose proof (snd_on_file (Parallel_sequential (map read_packet (packets c))) (jsonl fs)) as Hs.
  rewrite Parallel_sequential_run in Hs. cbn [snd] in Hs.
  destruct (on_file _ (jsonl fs)) as [f r]. cbn [fst snd] in *. subst r.
  destruct (first_rejection (packets c)); reflexivity.
Qed.

Lemma exported_nth (text : string) (captures : list capture) (k : nat) (c : capture) :
  nth_error captures k = Some c ->
  nth_error (exported text captures) k
  = Some (parquet_name c,
          read_ndjson (text ++ in_decode_order (all_packets (firstn (S k) captures)))).
Proof.
  revert text k. induction captures as [|c0 rest IH]; intros text k H.
  - destruct k; discriminate.
  - destruct k as [|k].
    + injection H as ->. cbn. unfold all_packets. cbn.
      now rewrite app_nil_r.
    + cbn [nth_error] in H. cbn [exported nth_error].
      rewrite (IH _ _ H). unfold all_packets.
      cbn [firstn flat_map]. now rewrite in_decode_order_app, append_assoc.
Qed.

Lemma main_loop_finished (captures : list capture) (fs fs' : files) :
  main_loop 1 captures fs = Some (fs', Finished) ->
  content (jsonl fs') = content (jsonl fs) ++ in_decode_order (all_packets captures)
  /\ exists new,
       parquet fs' = (parquet fs ++ new)%list
       /\ map (fun w => (fst w, Some (snd w))) new = exported (content (jsonl fs)) captures.
Proof.
  revert fs. induction captures as [|c rest IH]; intros fs H.
  - cbn in H. injection H as <-. split.
    + cbn. now rewrite append_nil_r.
    + exists []. split; [now rewrite app_nil_r | reflexivity].
  - rewrite main_loop_step in H. cbv zeta in H.
    pose proof (content_on_file (Parallel_sequential (map read_packet (packets c)))
                  (jsonl fs)) as Hc.
    rewrite Parallel_sequential_run in Hc. cbn [fst] in Hc.
    destruct (first_rejection (packets c)) as [e|] eqn:Hrej; [discriminate|].
    rewrite (accepted_prefix_all _ Hrej) in Hc.
    destruct (fst (on_file _ (jsonl fs))) as [text|]; [|discriminate].
    cbn [content] in Hc. subst text.
    destruct (read_ndjson _) as [df|] eqn:Hdf; [|discriminate].
    apply IH in H. cbn [jsonl parquet content] in H.
    destruct H as (Htext & new & Hnew & Hexp). split.
    + rewrite Htext. unfold all_packets. cbn [flat_map].
      now rewrite in_decode_order_app, append_assoc.
    + exists ((parquet_name c, df) :: new). split.
      * rewrite Hnew. now rewrite <- app_assoc.
      * cbn [map exported fst snd]. now rewrite Hdf, Hexp.
Qed.

(** X1. When [main] finishes after a fresh start (there was no
    [pcap.jsonl], or the user agreed to remove it), the file holds the lines
    of the packets of all captures in the order in which they were read,
    and nothing of what it held before; one [.parquet] file was written
    for each capture, and the one of the k-th capture is read from the lines
    of the captures up to the k-th, not from its own lines alone. *)
Theorem main_exports_are_cumulative
    (answer : string) (captures : list capture) (fs fs' : files) :
  jsonl fs = None \/ says_yes answer = true ->
  main true answer 1 captures fs = Some (fs', Finished) ->
  content (jsonl fs') = in_decode_order (all_packets captures)
  /\ exists new,
       parquet fs' = (parquet fs ++ new)%list
       /\ List.length new = List.length captures
       /\ forall k c, nth_error captures k = Some c ->
            exists df,
              nth_error new k = Some (parquet_name c, df)
              /\ read_ndjson (in_decode_order (all_packets (firstn (S k) captures)))
                 = Some df.
Proof.
  intros Hstart H.
  assert (H' : main_loop 1 captures {| jsonl := None; parquet := parquet fs |}
               = Some (fs', Finished)).
  { unfold main in H. cbn [negb] in H. destruct fs as [[old|] ps]; cbn [jsonl parquet] in *.
    - destruct Hstart as [Hn|Hy]; [discriminate|]. now rewrite Hy in H.
    - exact H. }
  apply main_loop_finished in H'. cbn [jsonl parquet content] in H'.
  destruct H' as (Htext & new & Hnew & Hexp).
  split; [exact Htext|]. exists new. split; [exact Hnew|].
  assert (Hlen : List.length new = List.length captures).
  { apply (f_equal (@List.length _)) in Hexp. rewrite List.length_map in Hexp. rewrite Hexp.
    clear. generalize EmptyString. induction captures as [|c rest IH]; intros t;
      [reflexivity | cbn; now rewrite IH]. }
  split; [exact Hlen|].
  intros k c Hk.
  pose proof (exported_nth EmptyString captures k c Hk) as Hn.
  rewrite <- Hexp in Hn. rewrite nth_error_map in Hn.
  destruct (nth_error new k) as [[name df]|]; [|discriminate].
  cbn in Hn. injection Hn as -> Hdf. exists df. now split.
Qed.
End MainProperties.

Section MainFailures.
Context {lib : Library} {polars : Polars}.

Lemma main_fresh (answer : string) (jobs : Z) (captures : list capture) (fs : files) :
  jsonl fs = None \/ says_yes answer = true ->
  main true answer jobs captures fs
  = main_loop jobs captures {| jsonl := None; parquet := parquet fs |}.
Proof.
  intros Hstart. unfold main. cbn [negb].
  destruct fs as [[old|] ps]; cbn [jsonl parquet] in *.
  - destruct Hstart as [Hn|Hy]; [discriminate|]. now rewrite Hy.
  - reflexivity.
Qed.

(** Reading some captures and then some more is reading the second lot
    from the files that the first lot left. *)
Lemma main_loop_app (jobs : Z) (a b : list capture) (fs fs1 : files) :
  main_loop jobs a fs = Some (fs1, Finished) ->
  main_loop jobs (a ++ b)%list fs = main_loop jobs b fs1.
Proof.
  revert fs. induction a as [|c a IH]; intros fs H.
  - cbn in H. now injection H as <-.
  - cbn [app main_loop] in *.
    destruct (read_pcap (packets c) jobs) as [run|]; [|discriminate].
    destruct (on_file run (jsonl fs)) as [f r].
    destruct r as [u|e]; [|discriminate].
    destruct f as [text|]; [|discriminate].
    destruct (read_ndjson text) as [df|]; [|discriminate].
    now apply IH.
Qed.

(** X2. A packet that the model rejects ends [main] with the exception of
    the model.  The captures read before that one have their [.parquet]
    files; the capture with the rejected packet and the captures after it
    have none, and [pcap.jsonl] keeps the lines written up to the rejected
    packet. *)
Theorem rejection_aborts_main
    (answer : string) (before after : list capture) (c : capture) (e : exn)
    (fs fs1 : files) :
  jsonl fs = None \/ says_yes answer = true ->
  main true answer 1 before fs = Some (fs1, Finished) ->
  first_rejection (packets c) = Some e ->
  exists fs2,
    main true answer 1 (before ++ c :: after)%list fs = Some (fs2, Failed (Uncaught e))
    /\ parquet fs2 = parquet fs1
    /\ content (jsonl fs2)
       = content (jsonl fs1) ++ in_decode_order (accepted_prefix (packets c)).
Proof.
  intros Hstart Hb He.
  rewrite (main_fresh _ _ _ _ Hstart) in Hb.
  rewrite (main_fresh _ _ _ _ Hstart).
  rewrite (main_loop_app _ _ _ _ _ Hb), main_loop_step. cbv zeta. rewrite He.
  eexists. split; [reflexivity|]. cbn [parquet jsonl]. split; [reflexivity|].
  rewrite content_on_file, Parallel_sequential_run. reflexivity.
Qed.

(** X3. After a fresh start, a first capture that gives no record (it is
    empty, or none of its packets has an IP layer) leaves no [pcap.jsonl]
    behind, and [main] fails when it comes to read that file: no
    [.parquet] file is written and the captures after it are not read.  If
    the user had agreed to remove an earlier [pcap.jsonl], that file is
    gone. *)
Theorem capture_without_records_fails_export
    (answer : string) (c : capture) (rest : list capture) (fs : files) :
  jsonl fs = None \/ says_yes answer = true ->
  first_rejection (packets c) = None ->
  models_of (packets c) = [] ->
  main true answer 1 (c :: rest) fs
  = Some ({| jsonl := None; parquet := parquet fs |}, Failed FileNotFoundError).
Proof.
  intros Hstart Hrej Hnone.
  rewrite (main_fresh _ _ _ _ Hstart), main_loop_step. cbv zeta. rewrite Hrej.
  cbn [jsonl parquet]. unfold on_file. rewrite Parallel_sequential_run.
  rewrite (accepted_prefix_all _ Hrej), (in_decode_order_empty _ Hnone).
  reflexivity.
Qed.
End MainFailures.

(** ** Reading the file back *)
Section ReadBack.
Context {lib : Library}.

Lemma read_lines_nil (s : string) : read_lines s = [] -> s = EmptyString.
Proof.
  destruct s as [|c r]; [reflexivity|]. cbn [read_lines].
  destruct (Ascii.eqb c LF); [discriminate|].
  destruct (read_lines r); discriminate.
Qed.

Lemma read_lines_line (body rest : string) :
  no_line_feed body = true ->
  read_lines (body ++ String LF rest) = body :: read_lines rest.
Proof.
  induction body as [|c body IH]; intros H.
  - cbn [append read_lines]. now rewrite Ascii.eqb_refl.
  - cbn [no_line_feed] in H. apply andb_true_iff in H. destruct H as [Hc Hb].
    cbn [append read_lines]. apply negb_true_iff in Hc. rewrite Hc.
    now rewrite (IH Hb).
Qed.

Lemma read_lines_String (c : ascii) (r : string) :
  read_lines (String c r)
  = if Ascii.eqb c LF then EmptyString :: read_lines r
    else match read_lines r with
         | [] => [String c EmptyString]
         | l :: ls => String c l :: ls
         end.
Proof. reflexivity. Qed.

Lemma read_lines_app (a b : string) :
  ends_with_line_feed a = true ->
  read_lines (a ++ b) = (read_lines a ++ read_lines b)%list.
Proof.
  induction a as [|c r IH]; intros H; [reflexivity|].
  destruct r as [|c' r'].
  - cbn [ends_with_line_feed] in H. cbn [append read_lines]. now rewrite H.
  - assert (Hr : ends_with_line_feed (String c' r') = true) by exact H.
    specialize (IH Hr).
    change (String c (String c' r') ++ b) with (String c (String c' r' ++ b)).
    rewrite !read_lines_String with (c := c). rewrite IH.
    destruct (Ascii.eqb c LF); [reflexivity|].
    destruct (read_lines (String c' r')) as [|l ls] eqn:E; [|reflexivity].
    apply read_lines_nil in E. discriminate.
Qed.

Lemma read_lines_of_lines (models : list Packet) :
  read_lines (lines models) = map (fun pckt => json_dumps (model_dump pckt)) models.
Proof.
  induction models as [|pckt models IH]; [reflexivity|].
  cbn [lines fold_right map]. fold (lines models).
  unfold log_entry. rewrite append_assoc. cbn [append].
  now rewrite read_lines_line, IH by apply no_line_feed_json_dumps.
Qed.

Lemma models_of_accepted_prefix_length (pcap : list pyshark.packet) :
  (List.length (models_of (accepted_prefix pcap)) <= List.length (with_ip pcap))%nat.
Proof.
  induction pcap as [|packet pcap IH]; [apply Nat.le_refl|].
  cbn [accepted_prefix with_ip filter]. unfold rejection.
  destruct (pyshark.ip packet) as [ip|] eqn:Hip.
  - destruct (Packet_init (Packet_kwargs packet ip)) as [pckt|e] eqn:E.
    + cbn [models_of flat_map]. rewrite Hip, E. cbn [app List.length].
      now apply le_n_S.
    + apply Nat.le_0_l.
  - cbn [models_of flat_map]. rewrite Hip. exact IH.
Qed.

(** X4. The file can be read back line by line.  When a run with one job
    starts from a file whose lines are all closed, the lines of the file it
    leaves are the lines that were there, followed by the json texts of the
    models recorded, one line each and in the order of the packets; there
    are at most as many new lines as the capture has packets with an IP
    layer. *)
Theorem sequential_run_reads_back (pcap : list pyshark.packet) (log : string) :
  ends_with_line_feed log = true ->
  exists run,
    read_pcap pcap 1 = Some run
    /\ read_lines (fst (run log))
       = (read_lines log
          ++ map (fun pckt => json_dumps (model_dump pckt))
               (models_of (accepted_prefix pcap)))%list
    /\ (List.length (read_lines (fst (run log)))
        <= List.length (read_lines log) + List.length (with_ip pcap))%nat.
Proof.
  intros Hlog. exists (Parallel_sequential (map read_packet pcap)).
  split; [reflexivity|].
  rewrite Parallel_sequential_run. cbn [fst].
  rewrite (read_lines_app _ _ Hlog), in_decode_order_lines, read_lines_of_lines.
  split; [reflexivity|].
  rewrite length_app, length_map. apply Nat.add_le_mono_l.
  apply models_of_accepted_prefix_length.
Qed.
End ReadBack.

(** ** The records of the file

    The reader undoes the encoder: the line of a model is read back as the
    sixteen members of the model. *)
Section LogRecords.
Context {lib : Library}.

Lemma read_ESCAPE_DCT (c : ascii) (k : option string) (acc : string)
    (done : list (string * jtoken)) (rest : string) :
  read (InString k acc done) (ESCAPE_DCT c ++ rest) = read (InString k (snoc acc c) done) rest.
Proof.
  destruct c as [[] [] [] [] [] [] [] []]; reflexivity.
Qed.

Lemma snoc_app (acc : string) (c : ascii) (s : string) :
  snoc acc c ++ s = acc ++ String c s.
Proof. unfold snoc. now rewrite append_assoc. Qed.

Lemma read_escape (s : string) (k : option string) (acc : string)
    (done : list (string * jtoken)) (rest : string) :
  read (InString k acc done) (escape s ++ rest) = read (InString k (acc ++ s) done) rest.
Proof.
  revert acc. induction s as [|c s IH]; intros acc.
  - cbn [escape append]. now rewrite append_nil_r.
  - cbn [escape]. rewrite append_assoc, read_ESCAPE_DCT, IH. now rewrite snoc_app.
Qed.

Lemma read_key (k : string) (first : bool) (done : list (string * jtoken)) (rest : string) :
  read (AtMember first done) (encode_basestring k ++ rest) = read (AtColon k done) rest.
Proof.
  unfold encode_basestring.
  change (String DQUOTE (escape k ++ String DQUOTE EmptyString) ++ rest)
    with (String DQUOTE ((escape k ++ String DQUOTE EmptyString) ++ rest)).
  rewrite append_assoc.
  change (read (AtMember first done)
            (String DQUOTE (escape k ++ String DQUOTE EmptyString ++ rest)))
    with (read (InString None EmptyString done)
            (escape k ++ String DQUOTE rest)).
  now rewrite read_escape.
Qed.

Lemma read_string_value (s k : string) (done : list (string * jtoken)) (rest : string) :
  read (AtValue k done) (encode_basestring s ++ rest)
  = read (AfterValue ((k, TStr s) :: done)) rest.
Proof.
  unfold encode_basestring.
  change (String DQUOTE (escape s ++ String DQUOTE EmptyString) ++ rest)
    with (String DQUOTE ((escape s ++ String DQUOTE EmptyString) ++ rest)).
  rewrite append_assoc.
  change (read (AtValue k done)
            (String DQUOTE (escape s ++ String DQUOTE EmptyString ++ rest)))
    with (read (InString (Some k) EmptyString done)
            (escape s ++ String DQUOTE rest)).
  now rewrite read_escape.
Qed.

Lemma read_token_chars (t k acc : string) (done : list (string * jtoken)) (rest : string) :
  token_chars t = true ->
  read (InScalar k acc done) (t ++ rest) = read (InScalar k (acc ++ t) done) rest.
Proof.
  revert acc. induction t as [|c t IH]; intros acc H.
  - cbn [append]. now rewrite append_nil_r.
  - cbn [token_chars] in H. apply andb_true_iff in H. destruct H as [Hc Ht].
    unfold token_char in Hc. apply negb_true_iff in Hc.
    apply orb_false_iff in Hc. destruct Hc as [Hc Hq].
    apply orb_false_iff in Hc. destruct Hc as [Hc Hb].
    apply orb_false_iff in Hc. destruct Hc as [Hw Hcm].
    cbn [append read]. rewrite Hcm, Hb, Hw, (IH _ Ht). now rewrite snoc_app.
Qed.

Lemma read_scalar_value (t k : string) (done : list (string * jtoken)) (rest : string) :
  scalar_text t = true ->
  read (AtValue k done) (t ++ rest) = read (InScalar k t done) rest.
Proof.
  destruct t as [|c t]; [discriminate|]. cbn [scalar_text token_chars].
  intros H. apply andb_true_iff in H. destruct H as [Hc Ht].
  unfold token_char in Hc. apply negb_true_iff in Hc.
  apply orb_false_iff in Hc. destruct Hc as [Hc Hq].
  apply orb_false_iff in Hc. destruct Hc as [Hc Hb].
  apply orb_false_iff in Hc. destruct Hc as [Hw Hcm].
  cbn [append read]. rewrite Hw, Hq, Hcm, Hb. cbn [orb].
  now rewrite (read_token_chars _ _ _ _ _ Ht).
Qed.

Lemma token_chars_app (a b : string) :
  token_chars (a ++ b) = token_chars a && token_chars b.
Proof.
  induction a as [|c a IH]; cbn [append token_chars]; [reflexivity|].
  now rewrite IH, andb_assoc.
Qed.

Lemma token_chars_uint (d : Decimal.uint) :
  token_chars (NilEmpty.string_of_uint d) = true.
Proof.
  induction d; cbn [NilEmpty.string_of_uint token_chars]; [reflexivity|..];
    rewrite IHd; reflexivity.
Qed.

Lemma scalar_text_int_repr (z : Z) : scalar_text (int_repr z) = true.
Proof.
  assert (U : forall d, scalar_text (NilZero.string_of_uint d) = true).
  { intros d. destruct d; try reflexivity;
      apply (token_chars_uint (_ d)). }
  unfold int_repr, NilZero.string_of_int.
  destruct (Z.to_int z) as [d|d]; [apply U|].
  specialize (U d). destruct (NilZero.string_of_uint d) eqn:E; [discriminate|].
  cbn [scalar_text token_chars] in *. exact U.
Qed.

Lemma scalar_int_repr (z : Z) : scalar (int_repr z) = TInt z.
Proof.
  unfold scalar, int_repr.
  assert (H : forall d, option_map Z.of_int (NilZero.int_of_string (NilZero.string_of_int d))
                        = Some (Z.of_int d)).
  { intros [d|d].
    - destruct d; try (rewrite NilZero.isi; [reflexivity|discriminate..]). reflexivity.
    - destruct d; try (rewrite NilZero.isi; [reflexivity|discriminate..]). reflexivity. }
  specialize (H (Z.to_int z)). rewrite DecimalZ.of_to in H.
  destruct (NilZero.int_of_string _); cbn in H; congruence.
Qed.

Lemma read_scalar_comma (k t : string) (done : list (string * jtoken)) (rest : string) :
  read (InScalar k t done) (String "," rest)
  = read (AtMember false ((k, scalar t) :: done)) rest.
Proof. reflexivity. Qed.

Lemma read_scalar_brace (k t : string) (done : list (string * jtoken)) (rest : string) :
  read (InScalar k t done) (String "}" rest) = read (AtEnd ((k, scalar t) :: done)) rest.
Proof. reflexivity. Qed.

Lemma read_value_comma (v : jvalue) (k : string) (done : list (string * jtoken)) (rest : string) :
  readable v = true ->
  read (AtValue k done) (encode_value v ++ String "," rest)
  = read (AtMember false ((k, decoded v) :: done)) rest.
Proof.
  destruct v as [z|f|s]; cbn [readable encode_value decoded]; intros H.
  - rewrite read_scalar_value by apply scalar_text_int_repr.
    rewrite read_scalar_comma, scalar_int_repr. reflexivity.
  - rewrite read_scalar_value by exact H. apply read_scalar_comma.
  - rewrite read_string_value. reflexivity.
Qed.

Lemma read_value_brace (v : jvalue) (k : string) (done : list (string * jtoken)) (rest : string) :
  readable v = true ->
  read (AtValue k done) (encode_value v ++ String "}" rest)
  = read (AtEnd ((k, decoded v) :: done)) rest.
Proof.
  destruct v as [z|f|s]; cbn [readable encode_value decoded]; intros H.
  - rewrite read_scalar_value by apply scalar_text_int_repr.
    rewrite read_scalar_brace, scalar_int_repr. reflexivity.
  - rewrite read_scalar_value by exact H. apply read_scalar_brace.
  - rewrite read_string_value. reflexivity.
Qed.

Lemma read_item_value (kv : string * jvalue) (first : bool)
    (done : list (string * jtoken)) (rest : string) :
  read (AtMember first done) (encode_item kv ++ rest)
  = read (AtValue (fst kv) done) (encode_value (snd kv) ++ rest).
Proof.
  unfold encode_item. rewrite append_assoc, read_key, append_assoc. reflexivity.
Qed.

Lemma read_members (d : list (string * jvalue)) (kv : string * jvalue) (first : bool)
    (done : list (string * jtoken)) (rest : string) :
  forallb readable (map snd (kv :: d)) = true ->
  read (AtMember first done)
       (String.concat ", " (map encode_item (kv :: d)) ++ String "}" rest)
  = read (AtEnd (rev (map decoded_item (kv :: d)) ++ done)%list) rest.
Proof.
  revert kv first done. induction d as [|kv' d IH]; intros kv first done H.
  - cbn [map forallb] in H. apply andb_true_iff in H. destruct H as [H _].
    cbn [map String.concat rev app].
    rewrite read_item_value, read_value_brace by exact H. reflexivity.
  - cbn [map forallb] in H. apply andb_true_iff in H. destruct H as [H Hd].
    change (String.concat ", " (map encode_item (kv :: kv' :: d)))
      with (encode_item kv ++ ", " ++ String.concat ", " (map encode_item (kv' :: d))).
    rewrite append_assoc, read_item_value.
    change (", " ++ String.concat ", " (map encode_item (kv' :: d)))
      with (String "," (String " " (String.concat ", " (map encode_item (kv' :: d))))).
    change (String "," (String " " (String.concat ", " (map encode_item (kv' :: d)))) ++ String "}" rest)
      with (String "," (String " " (String.concat ", " (map encode_item (kv' :: d)) ++ String "}" rest))).
    rewrite read_value_comma by exact H.
    change (read (AtMember false ((fst kv, decoded (snd kv)) :: done))
              (String " " (String.concat ", " (map encode_item (kv' :: d)) ++ String "}" rest)))
      with (read (AtMember false ((fst kv, decoded (snd kv)) :: done))
              (String.concat ", " (map encode_item (kv' :: d)) ++ String "}" rest)).
    rewrite IH by exact Hd.
    change (map decoded_item (kv :: kv' :: d))
      with (decoded_item kv :: map decoded_item (kv' :: d)).
    cbn [rev]. rewrite <- app_assoc. reflexivity.
Qed.

Lemma read_json_dumps (d : pydict) (rest : string) :
  forallb readable (map snd d) = true ->
  read AtStart (json_dumps d ++ rest) = read (AtEnd (rev (map decoded_item d))) rest.
Proof.
  intros H. unfold json_dumps.
  destruct d as [|kv d]; [reflexivity|].
  change (("{" ++ String.concat ", " (map encode_item (kv :: d)) ++ "}") ++ rest)
    with (String "{" ((String.concat ", " (map encode_item (kv :: d)) ++ "}") ++ rest)).
  rewrite append_assoc.
  change (read AtStart (String "{" (String.concat ", " (map encode_item (kv :: d)) ++ "}" ++ rest)))
    with (read (AtMember true [])
            (String.concat ", " (map encode_item (kv :: d)) ++ String "}" rest)).
  rewrite read_members by exact H. now rewrite app_nil_r.
Qed.

Lemma json_loads_json_dumps (d : pydict) :
  forallb readable (map snd d) = true ->
  json_loads (json_dumps d) = Some (map decoded_item d).
Proof.
  intros H. unfold json_loads.
  rewrite <- (append_nil_r (json_dumps d)), read_json_dumps by exact H.
  cbn [read]. now rewrite rev_involutive.
Qed.

Lemma model_dump_decoded (pckt : Packet) : map decoded_item (model_dump pckt) = record pckt.
Proof. reflexivity. Qed.

Lemma model_dump_readable (pckt : Packet) :
  forallb readable (map snd (model_dump pckt))
  = scalar_text (float_json (sniff_timestamp pckt)).
Proof. cbn. now rewrite andb_true_r. Qed.

Lemma json_loads_log_entry (pckt : Packet) :
  scalar_text (float_json (sniff_timestamp pckt)) = true ->
  json_loads (json_dumps (model_dump pckt)) = Some (record pckt)
  /\ json_loads (log_entry pckt) = Some (record pckt).
Proof.
  intros H. rewrite <- model_dump_readable in H. split.
  - now rewrite json_loads_json_dumps, model_dump_decoded.
  - unfold json_loads, log_entry. rewrite read_json_dumps by exact H.
    cbn [read]. change (is_ws LF) with true. cbv iota.
    now rewrite rev_involutive, model_dump_decoded.
Qed.

(** C8. Every line of the file is the json text of one object, followed by
    a line feed and with no line feed inside.  Read back, the text of a
    model is an object of sixteen members, whose keys are the field names
    of [Packet] in the order of the class and whose values are those of the
    model: [dsfield] is the integer of the model, written in decimal, not
    the hexadecimal text of the input.  (The text of the [float] comes from
    the library; it is taken to be one scalar.)  What [read_packet] adds to
    the file is nothing or one such line, whose [dsfield] is the number
    that the hexadecimal input stands for; and a run with one job over a
    capture, from an empty file, leaves a file whose lines, read one by
    one, are the records of the models recorded, in the order of the
    packets. *)
Theorem log_lines_are_json_records :
  (forall pckt,
     log_entry pckt = json_dumps (model_dump pckt) ++ String LF EmptyString
     /\ no_line_feed (json_dumps (model_dump pckt)) = true
     /\ map fst (record pckt) = field_names
     /\ nth_error (record pckt) 2 = Some ("dsfield", TInt (dsfield pckt))
     /\ (scalar_text (float_json (sniff_timestamp pckt)) = true ->
         json_loads (json_dumps (model_dump pckt)) = Some (record pckt)
         /\ json_loads (log_entry pckt) = Some (record pckt)))
  /\ (forall packet log log' r, read_packet packet log = (log', r) ->
        log' = log
        \/ exists ip pckt,
             pyshark.ip packet = Some ip
             /\ log' = log ++ log_entry pckt
             /\ py_int (pyshark.dsfield ip) 16 = Return (dsfield pckt))
  /\ (forall pcap, exists run,
        read_pcap pcap 1 = Some run
        /\ fst (run EmptyString) = lines (models_of (accepted_prefix pcap))
        /\ (Forall (fun pckt => scalar_text (float_json (sniff_timestamp pckt)) = true)
              (models_of (accepted_prefix pcap)) ->
            map json_loads (read_lines (fst (run EmptyString)))
            = map (fun pckt => Some (record pckt)) (models_of (accepted_prefix pcap)))).
Proof.
  split; [|split].
  - intros pckt. split; [reflexivity|].
    split; [apply no_line_feed_json_dumps|].
    split; [reflexivity|]. split; [reflexivity|].
    apply json_loads_log_entry.
  - intros packet log log' r H.
    destruct (read_packet_cases packet log)
      as [[_ E] | [(ip & pckt & Hip & Hp & E) | (ip & e & _ & _ & E)]];
      rewrite E in H; injection H as <- <-; try (now left).
    right. exists ip, pckt.
    apply Packet_init_Return in Hp. destruct Hp as (_ & _ & Hd & _).
    now repeat split.
  - intros pcap. exists (Parallel_sequential (map read_packet pcap)).
    split; [reflexivity|].
    rewrite Parallel_sequential_run. cbn [fst append].
    rewrite in_decode_order_lines. split; [reflexivity|].
    intros Hall. rewrite read_lines_of_lines, map_map.
    induction Hall as [|pckt models Hp _ IH]; [reflexivity|].
    cbn [map]. rewrite IH. f_equal.
    apply (proj1 (json_loads_log_entry pckt Hp)).
Qed.
End LogRecords.

(** ** What the model accepts and how it rejects *)
Section Acceptance.
Context {lib : Library}.

(** Arguments that have the types of their fields are taken as they are,
    as soon as [flags_rb] is 0 and [int(v, 16)] reads the [dsfield]. *)
Lemma Packet_init_typed_args (pckt : Packet) (ds : pyobj) :
  flags_rb pckt = 0 ->
  py_int ds 16 = Return (dsfield pckt) ->
  Packet_init (typed_args pckt ds) = Return pckt.
Proof.
  intros Hrb Hds. apply Packet_init_Return. cbn. now repeat split.
Qed.

Lemma classified_ap {A B : Type} (P : exn -> Prop)
    (f : validated (A -> B)) (x : validated A) :
  classified P f -> classified P x -> classified P (f <*> x).
Proof.
  destruct f as [g|es|e], x as [a|es'|e']; cbn; try tauto.
  intros [Hne Hf] [Hne' Hf']. split.
  - destruct es; [contradiction | discriminate].
  - apply Forall_app. now split.
Qed.

Lemma classified_int_schema (P : exn -> Prop) (name : string) (v : pyobj) :
  In name field_names -> classified P (int_schema name v).
Proof.
  intros Hin. unfold int_schema.
  destruct v; try exact I; destruct (lax_int _); try exact I;
    (split; [discriminate | constructor; [exact Hin | constructor]]).
Qed.

Lemma classified_str_schema (P : exn -> Prop) (name : string) (v : pyobj) :
  In name field_names -> classified P (str_schema name v).
Proof.
  intros Hin. unfold str_schema.
  destruct v; try exact I; destruct (lax_str _); try exact I;
    (split; [discriminate | constructor; [exact Hin | constructor]]).
Qed.

Lemma classified_float_schema (P : exn -> Prop) (name : string) (v : pyobj) :
  In name field_names -> classified P (float_schema name v).
Proof.
  intros Hin. unfold float_schema.
  destruct v; try exact I; destruct (lax_float _); try exact I;
    (split; [discriminate | constructor; [exact Hin | constructor]]).
Qed.

Lemma in_field_names_dec (name : string) :
  existsb (String.eqb name) field_names = true -> In name field_names.
Proof.
  intros H. apply existsb_exists in H. destruct H as (x & Hx & E).
  apply String.eqb_eq in E. now subst.
Qed.

(** X6. [Packet(...)] raises in three ways only: the [TypeError] of
    [int(v, 16)], when [dsfield] is neither a [str] nor a byte string; the
    [TypeError] of the validator of [flags_rb], when that field is read as
    a value other than 0; or a [ValidationError], which then lists at least
    one line error and only line errors about fields of the model. *)
Theorem Packet_init_raises_three_ways (kw : Args.t) (e : exn) :
  Packet_init kw = Raise e ->
  (e = TypeError "int() can't convert non-string with explicit base"
   /\ non_string (Args.dsfield kw) = true)
  \/ (e = ValidationError_call "flags_rb must be zero."
      /\ exists v, int_schema "flags_rb" (Args.flags_rb kw) = Valid v /\ v <> 0)
  \/ (exists es, e = ValidationError es /\ es <> []
                 /\ Forall (fun le => In (loc le) field_names) es).
Proof.
  set (P := fun e : exn =>
    (e = TypeError "int() can't convert non-string with explicit base"
     /\ non_string (Args.dsfield kw) = true)
    \/ (e = ValidationError_call "flags_rb must be zero."
        /\ exists v, int_schema "flags_rb" (Args.flags_rb kw) = Valid v /\ v <> 0)).
  assert (Hds : classified P (validator_pre set_dsfield_int16 "dsfield" (Args.dsfield kw))).
  { unfold validator_pre, set_dsfield_int16, py_int.
    destruct (Args.dsfield kw) eqn:Ed; cbn;
      try (left; split; reflexivity);
      destruct (PyLong.FromString _ 16); cbn; try exact I;
      (split; [discriminate | constructor; [cbn; tauto | constructor]]). }
  assert (Hrb : classified P
                  (validator int_schema flags_rb_must_be_zero "flags_rb" (Args.flags_rb kw))).
  { unfold validator.
    pose proof (classified_int_schema P "flags_rb" (Args.flags_rb kw)) as Hi.
    destruct (int_schema "flags_rb" (Args.flags_rb kw)) as [v|es|e'] eqn:Ev.
    - unfold flags_rb_must_be_zero. destruct (Z.eqb_spec v 0) as [->|Hne]; cbn.
      + exact I.
      + right. split; [reflexivity|]. now exists v.
    - apply Hi. apply in_field_names_dec. reflexivity.
    - apply Hi. apply in_field_names_dec. reflexivity. }
  assert (Hall : classified P (model_validate kw)).
  { unfold model_validate.
    repeat (apply classified_ap;
            [| first [ exact Hds | exact Hrb
                     | apply classified_int_schema; apply in_field_names_dec; reflexivity
                     | apply classified_str_schema; apply in_field_names_dec; reflexivity
                     | apply classified_float_schema; apply in_field_names_dec; reflexivity ]]).
    exact I. }
  unfold Packet_init. destruct (model_validate kw) as [p|es|e']; cbn in Hall.
  - discriminate.
  - intros [= <-]. right. right. exists es. tauto.
  - intros [= <-]. destruct Hall as [H|H]; [now left | right; now left].
Qed.
End Acceptance.

(** ** The range of [dsfield] *)
Section DsfieldRange.
Context {lib : Library}.

Lemma DigitValue_hex_range (c : ascii) :
  is_hex_digit c = true -> 0 <= PyLong.DigitValue c < 16.
Proof.
  unfold is_hex_digit. intros H. apply Z.ltb_lt in H. split; [|exact H].
  destruct c as [[] [] [] [] [] [] [] []]; vm_compute; discriminate.
Qed.

Lemma hex_value_from_range (s : string) (acc : Z) :
  all_hex_digits s = true -> 0 <= acc ->
  acc * 16 ^ Z.of_nat (String.length s) <= hex_value_from acc s
  < (acc + 1) * 16 ^ Z.of_nat (String.length s).
Proof.
  revert acc. induction s as [|c s IH]; intros acc H Hacc.
  - cbn. lia.
  - cbn [all_hex_digits] in H. apply andb_true_iff in H. destruct H as [Hc Hs].
    pose proof (DigitValue_hex_range c Hc) as Hd.
    cbn [hex_value_from String.length].
    specialize (IH (acc * 16 + PyLong.DigitValue c) Hs ltac:(lia)).
    rewrite Nat2Z.inj_succ, Z.pow_succ_r by lia.
    assert (0 < 16 ^ Z.of_nat (String.length s)) by (apply Z.pow_pos_nonneg; lia).
    nia.
Qed.

(** X7. A [dsfield] given as a string of [n] hexadecimal digits, with or
    without [0x] in front, is read as a number from 0 to [16^n - 1]: two
    digits, as pyshark writes the field, give a byte. *)
Theorem dsfield_of_hex_digits_is_bounded (s : string) :
  s <> EmptyString -> all_hex_digits s = true ->
  exists z,
    set_dsfield_int16 (PyStr s) = Return z
    /\ set_dsfield_int16 (PyStr ("0x" ++ s)) = Return z
    /\ 0 <= z < 16 ^ Z.of_nat (String.length s).
Proof.
  intros Hne H. exists (hex_value s).
  unfold set_dsfield_int16, py_int.
  change (PyLong.TransformDecimalAndSpaceToASCII ("0x" ++ s))
    with ("0x" ++ PyLong.TransformDecimalAndSpaceToASCII s).
  rewrite (Transform_hex s H), (FromString_hex s Hne H), (FromString_0x_hex s Hne H).
  split; [reflexivity | split; [reflexivity|]].
  pose proof (hex_value_from_range s 0 H ltac:(lia)) as Hr.
  unfold hex_value. lia.
Qed.

Lemma FromString_minus_hex (s : string) :
  s <> EmptyString -> all_hex_digits s = true ->
  PyLong.FromString (String "-" s) 16 = Some (- hex_value s).
Proof.
  intros Hne H. destruct s as [|c s]; [contradiction|].
  pose proof (scan_digits_hex (String c s) 0 0 H) as Hscan.
  cbn [all_hex_digits] in H. apply andb_true_iff in H. destruct H as [Hc Hs].
  destruct (hex_digit_plain c Hc) as (_ & Hu & _).
  assert (Hpre : PyLong.skip_prefix 16 (String c s) = String c s).
  { destruct s as [|l r]; [reflexivity|].
    cbn [all_hex_digits] in Hs. apply andb_true_iff in Hs. destruct Hs as [Hl _].
    destruct (hex_digit_plain l Hl) as (_ & _ & _ & _ & Hp & _).
    cbn [PyLong.skip_prefix]. now rewrite Hp, andb_false_r. }
  unfold PyLong.FromString.
  change (PyLong.skip_sign (PyLong.skip_spaces (String "-" (String c s))))
    with (true, String c s).
  cbv iota. rewrite Hpre. cbn [PyLong.begins_with_underscore].
  rewrite Hu, Hscan. reflexivity.
Qed.

(** X8. The model does not check the sign of [dsfield]: a minus sign in
    front of the hexadecimal digits is read, and a model whose [dsfield] is
    the negated number is built whenever the other arguments are
    acceptable. *)
Theorem negative_dsfield_is_accepted (kw : Args.t) (pckt : Packet) (s : string) :
  s <> EmptyString -> all_hex_digits s = true ->
  Packet_init kw = Return pckt ->
  Packet_init (with_dsfield kw (PyStr (String "-" s)))
  = Return (set_dsfield pckt (- hex_value s))
  /\ - hex_value s <= 0.
Proof.
  intros Hne H Hp. split.
  - apply (Packet_init_with_dsfield _ _ _ _ Hp).
    unfold py_int.
    change (PyLong.TransformDecimalAndSpaceToASCII (String "-" s))
      with (String "-" (PyLong.TransformDecimalAndSpaceToASCII s)).
    now rewrite (Transform_hex s H), (FromString_minus_hex s Hne H).
  - pose proof (hex_value_from_range s 0 H ltac:(lia)) as Hr.
    unfold hex_value. lia.
Qed.
Lemma all_hex_string_of_uint (d : Hexadecimal.uint) :
  all_hex_digits (HexadecimalString.NilEmpty.string_of_uint d) = true.
Proof.
  induction d; cbn [HexadecimalString.NilEmpty.string_of_uint all_hex_digits];
    [reflexivity|..]; rewrite IHd; reflexivity.
Qed.

Lemma hex_value_from_acc (d : Hexadecimal.uint) (p : positive) :
  hex_value_from (Zpos p) (HexadecimalString.NilEmpty.string_of_uint d)
  = Zpos (Pos.of_hex_uint_acc d p).
Proof.
  revert p. induction d; intros p;
    cbn [HexadecimalString.NilEmpty.string_of_uint hex_value_from Pos.of_hex_uint_acc];
    [reflexivity|..];
    rewrite <- IHd; f_equal; vm_compute (PyLong.DigitValue _); lia.
Qed.

Lemma hex_value_uint (d : Hexadecimal.uint) :
  hex_value (HexadecimalString.NilEmpty.string_of_uint d) = Z.of_N (Pos.of_hex_uint d).
Proof.
  unfold hex_value.
  induction d;
    cbn [HexadecimalString.NilEmpty.string_of_uint hex_value_from Pos.of_hex_uint];
    [reflexivity | exact IHd | ..];
    vm_compute (PyLong.DigitValue _); cbn [Z.mul Z.add Z.of_N]; apply hex_value_from_acc.
Qed.

Lemma hex_digits_of_positive (p : positive) :
  HexadecimalString.NilEmpty.string_of_uint (Pos.to_hex_uint p) <> EmptyString
  /\ all_hex_digits (HexadecimalString.NilEmpty.string_of_uint (Pos.to_hex_uint p)) = true
  /\ hex_value (HexadecimalString.NilEmpty.string_of_uint (Pos.to_hex_uint p)) = Zpos p.
Proof.
  split; [|split].
  - pose proof (HexadecimalPos.Unsigned.to_uint_nonnil p) as Hn.
    destruct (Pos.to_hex_uint p); try contradiction; discriminate.
  - apply all_hex_string_of_uint.
  - now rewrite hex_value_uint, HexadecimalPos.Unsigned.of_to.
Qed.

(** [int(format(z, 'x'), 16) == z] *)
Lemma py_int_hex_text (z : Z) : py_int (PyStr (hex_text z)) 16 = Return z.
Proof.
  destruct z as [|p|p]; [reflexivity|..];
    destruct (hex_digits_of_positive p) as (Hne & Hh & Hv); unfold hex_text, py_int.
  - now rewrite (Transform_hex _ Hh), (FromString_hex _ Hne Hh), Hv.
  - change (PyLong.TransformDecimalAndSpaceToASCII
              (String "-" (HexadecimalString.NilEmpty.string_of_uint (Pos.to_hex_uint p))))
      with (String "-" (PyLong.TransformDecimalAndSpaceToASCII
                          (HexadecimalString.NilEmpty.string_of_uint (Pos.to_hex_uint p)))).
    now rewrite (Transform_hex _ Hh), (FromString_minus_hex _ Hne Hh), Hv.
Qed.

(** X5. Apart from [flags_rb] and [dsfield] the model checks nothing but
    types, and it bounds no integer: every model with [flags_rb = 0] is
    built by [Packet(...)] from its own values, whatever they are (a
    negative [ttl], a [proto] above 255, any text as address).  The
    [dsfield] is given as the model's number written in base 16, which
    [int(v, 16)] reads back as that number; any other input that
    [int(v, 16)] reads as that number does as well. *)
Theorem every_model_is_built_from_its_values (pckt : Packet) :
  flags_rb pckt = 0 ->
  set_dsfield_int16 (PyStr (hex_text (dsfield pckt))) = Return (dsfield pckt)
  /\ Packet_init (typed_args pckt (PyStr (hex_text (dsfield pckt)))) = Return pckt
  /\ (forall ds, py_int ds 16 = Return (dsfield pckt) ->
        Packet_init (typed_args pckt ds) = Return pckt).
Proof.
  intros Hrb. split; [apply py_int_hex_text|]. split.
  - apply (Packet_init_typed_args _ _ Hrb), py_int_hex_text.
  - intros ds Hds. apply (Packet_init_typed_args _ _ Hrb Hds).
Qed.
End DsfieldRange.

(** ** topology_analysis.py: [get_diameter] *)
Section Diameter.

Lemma fold_left_max (r : list Z) (x : Z) :
  x <= fold_left Z.max r x
  /\ Forall (fun y => y <= fold_left Z.max r x) r
  /\ In (fold_left Z.max r x) (x :: r).
Proof.
  revert x. induction r as [|y r IH]; intros x; cbn [fold_left].
  - split; [lia | split; [constructor | now left]].
  - destruct (IH (Z.max x y)) as (H1 & H2 & H3). split; [lia|]. split.
    + constructor; [lia | exact H2].
    + destruct H3 as [H3|H3]; [|right; right; exact H3].
      destruct (Z.max_spec x y) as [[_ E]|[_ E]]; rewrite E in H3 |- *.
      * right. now left.
      * now left.
Qed.

Lemma set_remove_present (x : Z) (s : list Z) :
  existsb (Z.eqb x) s = true ->
  set_remove x s = inr (filter (fun y => negb (y =? x)) s).
Proof. intros H. unfold set_remove. now rewrite H. Qed.

Lemma filter_has_distance (row : list Z) :
  has_distance row = true ->
  filter (fun y => negb (y =? INT32_MAX)) row <> [].
Proof.
  unfold has_distance. intros H. apply existsb_exists in H.
  destruct H as (x & Hin & Hx). intros E.
  assert (Hf : In x (filter (fun y => negb (y =? INT32_MAX)) row))
    by (apply filter_In; now split).
  rewrite E in Hf. contradiction.
Qed.

(** One turn of the loop on a row that has the mark and a distance: the
    greatest distance of the row is compared with the diameter so far. *)
Lemma diameter_loop_step (row : list Z) (rest : list (list Z)) (d : Z) :
  has_distance row = true -> has_unreachable row = true ->
  exists m,
    diameter_loop (row :: rest) d = diameter_loop rest (if m >? d then m else d)
    /\ In m row /\ m <> INT32_MAX
    /\ forall x, In x row -> x <> INT32_MAX -> x <= m.
Proof.
  intros Hd Hu. cbn [diameter_loop].
  rewrite (set_remove_present _ _ Hu).
  pose proof (filter_has_distance row Hd) as Hne.
  destruct (filter (fun y => negb (y =? INT32_MAX)) row) as [|x r] eqn:E;
    [contradiction|].
  cbn [py_max]. exists (fold_left Z.max r x). split; [reflexivity|].
  destruct (fold_left_max r x) as (H1 & H2 & H3).
  assert (Hin : forall y, In y (x :: r) <-> In y row /\ y <> INT32_MAX).
  { intros y. rewrite <- E, filter_In, negb_true_iff, Z.eqb_neq. tauto. }
  split; [now apply Hin|]. split; [now apply Hin|].
  intros y Hy Hy'. destruct (proj2 (Hin y) (conj Hy Hy')) as [<-|Hr]; [exact H1|].
  rewrite Forall_forall in H2. now apply H2.
Qed.

Lemma diameter_loop_result (rows : list (list Z)) (d0 : Z) :
  Forall (fun row => has_distance row = true /\ has_unreachable row = true) rows ->
  exists d,
    diameter_loop rows d0 = inr d
    /\ d0 <= d
    /\ (forall row x, In row rows -> In x row -> x <> INT32_MAX -> x <= d)
    /\ (d = d0 \/ exists row, In row rows /\ In d row /\ d <> INT32_MAX).
Proof.
  intros H. revert d0. induction H as [|row rows [Hd Hu] _ IH]; intros d0.
  - exists d0. cbn. split; [reflexivity|]. split; [lia|]. split; [contradiction|now left].
  - destruct (diameter_loop_step row rows d0 Hd Hu) as (m & Hstep & Hin & Hm & Hmax).
    destruct (IH (if m >? d0 then m else d0)) as (d & Hres & Hge & Hall & Hatt).
    exists d. rewrite Hstep. split; [exact Hres|].
    assert (Hcmp : d0 <= (if m >? d0 then m else d0) /\ m <= (if m >? d0 then m else d0)).
    { destruct (Z.gtb_spec m d0); lia. }
    split; [lia|]. split.
    + intros r x [<-|Hr] Hx Hx'; [specialize (Hmax x Hx Hx'); lia | now apply (Hall r)].
    + destruct Hatt as [->|(r & Hr & Hdr & Hdm)].
      * destruct (Z.gtb_spec m d0); [|now left].
        right. exists row. split; [now left | now split].
      * right. exists r. split; [now right | now split].
Qed.

(** X9. [get_diameter] returns the greatest distance between two vertices
    one of which reaches the other, 0 when there is none, provided every
    vertex has a vertex it does not reach: the result is at least every
    distance in the rows, and it is 0 or one of those distances. *)
Theorem get_diameter_is_greatest_distance (rows : list (list Z)) :
  Forall (fun row => has_distance row = true /\ has_unreachable row = true) rows ->
  exists d,
    get_diameter rows = inr d
    /\ 0 <= d
    /\ (forall row x, In row rows -> In x row -> x <> INT32_MAX -> x <= d)
    /\ (d = 0 \/ exists row, In row rows /\ In d row /\ d <> INT32_MAX).
Proof.
  intros H. exact (diameter_loop_result rows 0 H).
Qed.

Lemma diameter_loop_KeyError (rows : list (list Z)) (d0 : Z) :
  Forall (fun row => has_distance row = true) rows ->
  Exists (fun row => has_unreachable row = false) rows ->
  diameter_loop rows d0 = inl (KeyError INT32_MAX).
Proof.
  intros Hd He. revert d0. induction He as [row rows Hu|row rows He IH]; intros d0.
  - cbn [diameter_loop]. unfold set_remove, has_unreachable in *. now rewrite Hu.
  - inversion Hd as [|? ? Hrow Hrows]; subst.
    destruct (has_unreachable row) eqn:Hu.
    + destruct (diameter_loop_step row rows d0 Hrow Hu) as (m & -> & _).
      now apply IH.
    + cbn [diameter_loop]. unfold set_remove, has_unreachable in *. now rewrite Hu.
Qed.

(** X10. [get_diameter] raises [KeyError] as soon as one vertex reaches
    every vertex of the graph, so that its row of distances holds no mark
    to remove: on a strongly connected graph, on a graph with one vertex,
    on a path from its first vertex. *)
Theorem get_diameter_raises_when_a_vertex_reaches_all (rows : list (list Z)) :
  Forall (fun row => has_distance row = true) rows ->
  Exists (fun row => has_unreachable row = false) rows ->
  get_diameter rows = inl (KeyError INT32_MAX).
Proof.
  intros Hd He. exact (diameter_loop_KeyError rows 0 Hd He).
Qed.
End Diameter.

(** ** Runs over parts of a capture *)
Section Parts.
Context {lib : Library}.

Lemma rejection_without_ip (packet : pyshark.packet) :
  pyshark.ip packet = None -> rejection packet = None /\ appended packet = EmptyString.
Proof. intros H. unfold rejection, appended. now rewrite H. Qed.

Lemma accepted_prefix_with_ip (pcap : list pyshark.packet) :
  in_decode_order (accepted_prefix (with_ip pcap)) = in_decode_order (accepted_prefix pcap)
  /\ first_rejection (with_ip pcap) = first_rejection pcap.
Proof.
  induction pcap as [|packet pcap [IH1 IH2]]; [now split|].
  cbn [with_ip filter]. fold (with_ip pcap).
  destruct (pyshark.ip packet) as [ip|] eqn:Hip.
  - cbn [accepted_prefix first_rejection].
    destruct (rejection packet); [now split|].
    cbn [in_decode_order fold_right].
    fold (in_decode_order (accepted_prefix (with_ip pcap))).
    fold (in_decode_order (accepted_prefix pcap)). now rewrite IH1, IH2.
  - destruct (rejection_without_ip packet Hip) as [Hr Ha].
    cbn [accepted_prefix first_rejection]. rewrite Hr.
    cbn [in_decode_order fold_right]. fold (in_decode_order (accepted_prefix pcap)).
    now rewrite Ha, IH1, IH2.
Qed.

(** X11. The frames without an IP layer have no part in a run with one
    job: the run over the capture and the run over its packets with an IP
    layer leave the same file and end the same way. *)
Theorem frames_without_ip_do_not_matter (pcap : list pyshark.packet) :
  exists run run',
    read_pcap pcap 1 = Some run
    /\ read_pcap (with_ip pcap) 1 = Some run'
    /\ forall log, run log = run' log.
Proof.
  exists (Parallel_sequential (map read_packet pcap)),
         (Parallel_sequential (map read_packet (with_ip pcap))).
  split; [reflexivity|]. split; [reflexivity|]. intros log.
  rewrite !Parallel_sequential_run.
  destruct (accepted_prefix_with_ip pcap) as [-> ->]. reflexivity.
Qed.

(** X12. Reading a capture in two parts, the second into the file that the
    first has left, is reading it whole; when a packet of the first part is
    rejected, the whole run ends there, with the file as the first part left
    it. *)
Theorem sequential_runs_compose (a b : list pyshark.packet) :
  exists run_a run_b run_ab,
    read_pcap a 1 = Some run_a
    /\ read_pcap b 1 = Some run_b
    /\ read_pcap (a ++ b)%list 1 = Some run_ab
    /\ forall log,
         run_ab log =
           match run_a log with
           | (log1, Return _) => run_b log1
           | (log1, Raise e) => (log1, Raise e)
           end.
Proof.
  exists (Parallel_sequential (map read_packet a)),
         (Parallel_sequential (map read_packet b)),
         (Parallel_sequential (map read_packet (a ++ b)%list)).
  split; [reflexivity|]. split; [reflexivity|]. split; [reflexivity|].
  induction a as [|packet a IH]; intros log; [reflexivity|].
  cbn [app map Parallel_sequential].
  change ((read_packet packet ;; Parallel_sequential (map read_packet (a ++ b)%list)) log)
    with (match read_packet packet log with
          | (log1, Return _) => Parallel_sequential (map read_packet (a ++ b)%list) log1
          | (log1, Raise e) => (log1, Raise e)
          end).
  change ((read_packet packet ;; Parallel_sequential (map read_packet a)) log)
    with (match read_packet packet log with
          | (log1, Return _) => Parallel_sequential (map read_packet a) log1
          | (log1, Raise e) => (log1, Raise e)
          end).
  destruct (read_packet packet log) as [log1 [u|e]]; [apply IH | reflexivity].
Qed.
End Parts.

(** ** The further properties on the examples *)

(** The models of the TCP packet and of the UDP packet of the examples, and
    the files that [main] leaves after the captures [monday] and
    [tuesday]. *)
Definition tcp_model : Packet := example_model 26 51234 80 1700000002.
Definition udp_model : Packet := example_model 0 40000 53 1700000000.

Definition two_frames : list (string * list string) :=
  [ ("data/monday.parquet", [json_dumps (lib := plain) (model_dump tcp_model)]);
    ("data/tuesday.parquet",
     [json_dumps (lib := plain) (model_dump tcp_model);
      json_dumps (lib := plain) (model_dump udp_model)]) ].

Definition after_two_captures : @files lines_as_frame :=
  @Build_files lines_as_frame
    (Some (log_entry (lib := plain) tcp_model ++ log_entry (lib := plain) udp_model))
    two_frames.

Definition old_files : @files lines_as_frame :=
  @Build_files lines_as_frame (Some "lines of an earlier run") [].

Definition no_files : @files lines_as_frame :=
  @Build_files lines_as_frame None [].

Lemma main_exports_are_cumulative_witness :
  main (lib := plain) true "y" 1 [first_capture; second_capture] old_files
  = Some (after_two_captures, Finished)
  /\ content (jsonl after_two_captures)
     = in_decode_order (lib := plain) (all_packets [first_capture; second_capture])
  /\ exists new,
       parquet after_two_captures = (parquet old_files ++ new)%list
       /\ List.length new = List.length [first_capture; second_capture]
       /\ forall k c, nth_error [first_capture; second_capture] k = Some c ->
            exists df,
              nth_error new k = Some (parquet_name c, df)
              /\ read_ndjson
                   (in_decode_order (lib := plain)
                      (all_packets (firstn (S k) [first_capture; second_capture])))
                 = Some df.
Proof.
  assert (H : main (lib := plain) true "y" 1 [first_capture; second_capture] old_files
              = Some (after_two_captures, Finished)) by (vm_compute; reflexivity).
  split; [exact H|].
  apply (main_exports_are_cumulative (lib := plain) "y" _ old_files _); [|exact H].
  right. reflexivity.
Defined.

Lemma rejection_aborts_main_witness :
  exists fs2,
    main (lib := plain) true EmptyString 1
      ([first_capture] ++ bad_capture :: [second_capture])%list no_files
    = Some (fs2,
            Failed (Uncaught (ValidationError
              [mk_line_error "dsfield" (value_error "invalid literal for int()")
                 (PyStr "zz")])))
    /\ parquet fs2 = firstn 1 two_frames
    /\ content (jsonl fs2)
       = content (Some (log_entry (lib := plain) tcp_model))
         ++ in_decode_order (lib := plain) (accepted_prefix (lib := plain) (packets bad_capture)).
Proof.
  apply (rejection_aborts_main (lib := plain) (polars := lines_as_frame)
           EmptyString [first_capture] [second_capture] bad_capture _ no_files
           (@Build_files lines_as_frame (Some (log_entry (lib := plain) tcp_model))
              (firstn 1 two_frames))).
  - left. reflexivity.
  - vm_compute. reflexivity.
  - vm_compute. reflexivity.
Defined.

Lemma capture_without_records_fails_export_witness :
  main (lib := plain) true "Y" 1 [arp_capture; first_capture] old_files
  = Some (no_files, Failed FileNotFoundError).
Proof.
  apply (capture_without_records_fails_export (lib := plain) (polars := lines_as_frame)
           "Y" arp_capture [first_capture] old_files).
  - right. reflexivity.
  - reflexivity.
  - reflexivity.
Defined.

Lemma sequential_run_reads_back_witness :
  exists run,
    read_pcap (lib := plain) [tcp_packet; arp_packet; udp_packet] 1 = Some run
    /\ read_lines (fst (run (log_entry (lib := plain) udp_model)))
       = (read_lines (log_entry (lib := plain) udp_model)
          ++ map (fun pckt => json_dumps (lib := plain) (model_dump pckt))
               (models_of (lib := plain)
                  (accepted_prefix (lib := plain) [tcp_packet; arp_packet; udp_packet])))%list
    /\ (List.length (read_lines (fst (run (log_entry (lib := plain) udp_model))))
        <= List.length (read_lines (log_entry (lib := plain) udp_model))
           + List.length (with_ip [tcp_packet; arp_packet; udp_packet]))%nat.
Proof.
  apply (sequential_run_reads_back (lib := plain)).
  vm_compute. reflexivity.
Defined.

Lemma log_lines_are_json_records_witness :
  json_loads (json_dumps (lib := plain) (model_dump tcp_model))
  = Some (record (lib := plain) tcp_model)
  /\ json_loads (log_entry (lib := plain) tcp_model)
     = Some (record (lib := plain) tcp_model).
Proof.
  apply (proj2 (proj2 (proj2 (proj2
           (proj1 (log_lines_are_json_records (lib := plain)) tcp_model))))).
  vm_compute. reflexivity.
Defined.

(** With the example instance every [float] is written as one scalar, so
    every line of a run is read back. *)
Lemma plain_float_json_scalar_text (f : float) : scalar_text (plain_float_json f) = true.
Proof.
  unfold plain_float_json.
  destruct (Z_of_float f) as [z|]; [|reflexivity].
  destruct (Z.abs z <? 2 ^ 53); [|reflexivity].
  pose proof (scalar_text_int_repr (Z.abs z)) as H.
  assert (T : token_chars (int_repr (Z.abs z) ++ ".0") = true).
  { rewrite token_chars_app. destruct (int_repr (Z.abs z)); [discriminate|].
    cbn [scalar_text] in H. now rewrite H. }
  destruct (int_repr (Z.abs z)) as [|c r] eqn:E; [discriminate|].
  destruct f as [[]| | |[] m e]; cbn [append scalar_text token_chars] in *;
    try exact T; now rewrite T.
Qed.

Example run_read_back :
  exists run,
    read_pcap (lib := plain) [tcp_packet; arp_packet; udp_packet] 1 = Some run
    /\ map json_loads (read_lines (fst (run EmptyString)))
       = [Some (record (lib := plain) tcp_model); Some (record (lib := plain) udp_model)].
Proof. eexists. split; [reflexivity | vm_compute; reflexivity]. Qed.

(** The line of the TCP packet of the examples, whose [dsfield] attribute
    is the text [0x1a], read back. *)
Example tcp_line_read_back :
  fst (read_packet (lib := plain) tcp_packet EmptyString)
  = log_entry (lib := plain) tcp_model
  /\ json_loads (log_entry (lib := plain) tcp_model)
     = Some [ ("dsfield_dscp", TInt 0); ("hdr_len", TInt 20); ("dsfield", TInt 26);
              ("dsfield_ecn", TInt 0); ("len", TInt 60); ("proto", TInt 17);
              ("flags_df", TInt 1); ("flags_mf", TInt 0); ("flags_rb", TInt 0);
              ("frag_offset", TInt 0); ("ttl", TInt 64); ("src", TStr "10.0.0.1");
              ("dst", TStr "10.0.0.2"); ("srcport", TInt 51234); ("dstport", TInt 80);
              ("sniff_timestamp", TOther "1700000002.0") ].
Proof. split; vm_compute; reflexivity. Qed.

(** Texts that are not one object are not read, and a string comes back
    with the characters that were escaped. *)
Example json_loads_examples :
  json_loads "{}" = Some []
  /\ json_loads "{} x" = None
  /\ json_loads "{" = None
  /\ json_loads (json_dumps (lib := plain) [("k", JStr (String DQUOTE (String LF "a\b")))])
     = Some [("k", TStr (String DQUOTE (String LF "a\b")))]
  /\ json_dumps (lib := plain) [("k", JStr (String DQUOTE (String LF "a\b")))]
     = "{" ++ String DQUOTE ("k" ++ String DQUOTE (": " ++ String DQUOTE
         ("\" ++ String DQUOTE ("\na\\b" ++ String DQUOTE "}")))).
Proof. repeat split; vm_compute; reflexivity. Qed.

Definition odd_model : Packet :=
  {| dsfield_dscp := 0;
     hdr_len := 20;
     dsfield := 26;
     dsfield_ecn := 0;
     len := 60;
     proto := 300;
     flags_df := 1;
     flags_mf := 0;
     flags_rb := 0;
     frag_offset := 0;
     ttl := -5;
     src := "not an address";
     dst := EmptyString;
     srcport := -1;
     dstport := 70000;
     sniff_timestamp := S754_zero false |}.

Lemma every_model_is_built_from_its_values_witness :
  set_dsfield_int16 (PyStr "1a") = Return 26
  /\ Packet_init (lib := plain) (typed_args odd_model (PyStr "1a")) = Return odd_model
  /\ (forall ds, py_int ds 16 = Return 26 ->
        Packet_init (lib := plain) (typed_args odd_model ds) = Return odd_model).
Proof.
  apply (every_model_is_built_from_its_values (lib := plain) odd_model). reflexivity.
Defined.

(** A model whose [dsfield] is negative is built from the text of a negative
    number. *)
Example negative_model_is_built :
  hex_text (- 300) = String "-" "12c"
  /\ Packet_init (lib := plain) (typed_args (set_dsfield odd_model (- 300)) (PyStr "-12c"))
     = Return (set_dsfield odd_model (- 300)).
Proof. split; vm_compute; reflexivity. Qed.

Lemma Packet_init_raises_three_ways_witness :
  (TypeError "No constructor defined for ValidationError"
   = TypeError "int() can't convert non-string with explicit base"
   /\ non_string (Args.dsfield (example_args "1700000005" "10.0.0.1" "10.0.0.2" "64" "1"))
      = true)
  \/ (TypeError "No constructor defined for ValidationError"
      = ValidationError_call "flags_rb must be zero."
      /\ exists v,
           int_schema (lib := plain) "flags_rb"
             (Args.flags_rb (example_args "1700000005" "10.0.0.1" "10.0.0.2" "64" "1"))
           = Valid v /\ v <> 0)
  \/ (exists es,
        TypeError "No constructor defined for ValidationError" = ValidationError es
        /\ es <> [] /\ Forall (fun le => In (loc le) field_names) es).
Proof.
  apply (Packet_init_raises_three_ways (lib := plain)
           (example_args "1700000005" "10.0.0.1" "10.0.0.2" "64" "1")).
  vm_compute. reflexivity.
Defined.

Lemma dsfield_of_hex_digits_is_bounded_witness :
  exists z,
    set_dsfield_int16 (PyStr "fc") = Return z
    /\ set_dsfield_int16 (PyStr ("0x" ++ "fc")) = Return z
    /\ 0 <= z < 16 ^ Z.of_nat (String.length "fc").
Proof.
  apply dsfield_of_hex_digits_is_bounded; [discriminate | reflexivity].
Defined.

Lemma negative_dsfield_is_accepted_witness :
  Packet_init (lib := plain) (with_dsfield example_args_ok (PyStr (String "-" "1a")))
  = Return (set_dsfield udp_model (- hex_value "1a"))
  /\ - hex_value "1a" <= 0.
Proof.
  apply (negative_dsfield_is_accepted (lib := plain)).
  - discriminate.
  - reflexivity.
  - vm_compute. reflexivity.
Defined.

Lemma get_diameter_is_greatest_distance_witness :
  exists d,
    get_diameter two_edges_distances = inr d
    /\ 0 <= d
    /\ (forall row x, In row two_edges_distances -> In x row -> x <> INT32_MAX -> x <= d)
    /\ (d = 0 \/ exists row, In row two_edges_distances /\ In d row /\ d <> INT32_MAX).
Proof.
  apply get_diameter_is_greatest_distance.
  repeat first [ apply Forall_nil
               | apply Forall_cons; [split; vm_compute; reflexivity|] ].
Defined.

Lemma get_diameter_raises_when_a_vertex_reaches_all_witness :
  get_diameter path_distances = inl (KeyError INT32_MAX).
Proof.
  apply get_diameter_raises_when_a_vertex_reaches_all.
  - repeat first [ apply Forall_nil | apply Forall_cons; [vm_compute; reflexivity|] ].
  - apply Exists_cons_hd. vm_compute. reflexivity.
Defined.

Example get_diameter_of_two_edges : get_diameter two_edges_distances = inr 1.
Proof. reflexivity. Qed.
